(** * loader.Data: loading a table from a local file or from Kaggle

    A shallow embedding of [loader.py] (class [Data]): the constructor
    [__init__], [validate_local_path], the recursive format dispatcher
    [load] and the remote fetcher [kaggle_load], together with the parts
    of [pathlib] and [urllib.parse] they rely on.

    Conventions.
    - A Python [str] is a [string] holding its UTF-8 bytes.  Every slice
      taken by the program removes an ASCII prefix or suffix, so byte
      offsets and code-point offsets agree where they are used.
    - Paths are POSIX paths ([pathlib.PurePosixPath] semantics).
    - The file system, the Kaggle client and pandas are collaborators: a
      call to one of them is a function on an abstract world that may
      raise, and every call is appended to a trace. *)

From Stdlib Require Import String Ascii List Bool Arith Lia.
From stdpp Require Import gmap strings.
Import ListNotations.
Local Open Scope string_scope.
Local Open Scope list_scope.

(** ** Python string operations *)

Module Py.

(** [s[n:]] *)
Fixpoint drop (n : nat) (s : string) : string :=
  match n, s with
  | O, _ => s
  | S _, EmptyString => EmptyString
  | S n', String _ s' => drop n' s'
  end.

(** [s[:n]] *)
Fixpoint take (n : nat) (s : string) : string :=
  match n, s with
  | O, _ => EmptyString
  | S _, EmptyString => EmptyString
  | S n', String c s' => String c (take n' s')
  end.

(** [s[:-n]]; for [n = 0] Python reads [s[:0]], the empty string. *)
Definition drop_end (n : nat) (s : string) : string :=
  match n with
  | O => EmptyString
  | S _ => take (String.length s - n) s
  end.

(** [s.startswith(p)] *)
Fixpoint startswith (s p : string) {struct p} : bool :=
  match p with
  | EmptyString => true
  | String b p' =>
      match s with
      | EmptyString => false
      | String a s' => Ascii.eqb a b && startswith s' p'
      end
  end.

(** [s.endswith(p)] *)
Definition endswith (s p : string) : bool :=
  (String.length p <=? String.length s)%nat
  && String.eqb (drop (String.length s - String.length p) s) p.

(** [s.split(sep)] for a one-character separator: never empty. *)
Fixpoint split (sep : ascii) (s : string) : list string :=
  match s with
  | EmptyString => [EmptyString]
  | String c s' =>
      if Ascii.eqb c sep then EmptyString :: split sep s'
      else match split sep s' with
           | [] => [String c EmptyString]
           | w :: ws => String c w :: ws
           end
  end.

(** [sep.join(l)] *)
Fixpoint join (sep : string) (l : list string) : string :=
  match l with
  | [] => EmptyString
  | [x] => x
  | x :: rest => x +:+ sep +:+ join sep rest
  end.

(** The length of [join sep l] for a one-character [sep]. *)
Fixpoint join_length (l : list string) : nat :=
  match l with
  | [] => 0
  | [x] => String.length x
  | x :: rest => String.length x + 1 + join_length rest
  end.

(** [s.rfind(c)]: index of the last occurrence, [None] for Python's -1. *)
Fixpoint rfind (c : ascii) (s : string) : option nat :=
  match s with
  | EmptyString => None
  | String a s' =>
      match rfind c s' with
      | Some i => Some (S i)
      | None => if Ascii.eqb a c then Some O else None
      end
  end.

(** [s.find(c)]: index of the first occurrence, [None] for Python's -1. *)
Fixpoint find (c : ascii) (s : string) : option nat :=
  match s with
  | EmptyString => None
  | String a s' =>
      if Ascii.eqb a c then Some O
      else match find c s' with
           | Some i => Some (S i)
           | None => None
           end
  end.

(** [l[-1]] of a list of strings (the lists it is applied to are never
    empty; [""] stands for the [IndexError] case, which cannot occur). *)
Definition last_item (l : list string) : string := List.last l EmptyString.

(** [x in l] for a list of strings *)
Definition contains (l : list string) (x : string) : bool :=
  existsb (String.eqb x) l.

(** Truth value of an optional [str] argument: [None] and [""] are falsy. *)
Definition truthy (o : option string) : bool :=
  match o with
  | Some s => negb (String.eqb s EmptyString)
  | None => false
  end.

(** [all(l)] on truth values *)
Definition all (l : list bool) : bool := forallb (fun b => b) l.

(** [s.lower()] on ASCII letters *)
Definition lower_ascii (c : ascii) : ascii :=
  let n := nat_of_ascii c in
  if (65 <=? n)%nat && (n <=? 90)%nat then ascii_of_nat (n + 32) else c.

Fixpoint lower (s : string) : string :=
  match s with
  | EmptyString => EmptyString
  | String c s' => String (lower_ascii c) (lower s')
  end.

End Py.

(** ** urllib.parse.quote *)

Module urllib.

Definition hex_digit (n : nat) : ascii :=
  if (n <? 10)%nat then ascii_of_nat (48 + n) else ascii_of_nat (55 + n).

(** Characters [quote] never escapes: letters, digits and [_.-~], plus
    the default [safe='/']. *)
Definition always_safe (c : ascii) : bool :=
  let n := nat_of_ascii c in
  ((65 <=? n)%nat && (n <=? 90)%nat) || ((97 <=? n)%nat && (n <=? 122)%nat)
  || ((48 <=? n)%nat && (n <=? 57)%nat)
  || Ascii.eqb c "_" || Ascii.eqb c "." || Ascii.eqb c "-" || Ascii.eqb c "~".

Definition quote_byte (c : ascii) : string :=
  if always_safe c || Ascii.eqb c "/" then String c EmptyString
  else
    let n := nat_of_ascii c in
    String "%" (String (hex_digit (n / 16)) (String (hex_digit (n mod 16)) EmptyString)).

(** [quote(s)]: every byte outside the safe set becomes [%XX]. *)
Fixpoint quote (s : string) : string :=
  match s with
  | EmptyString => EmptyString
  | String c s' => quote_byte c +:+ quote s'
  end.

(** The fields of [urlparse]'s result. *)
Record ParseResult := mkParseResult {
  scheme : string;
  netloc : string;
  path : string;
  params : string;
  query : string;
  fragment : string
}.

End urllib.

(** ** pathlib (POSIX flavour) *)

Module pathlib.

(** A parsed path: its root ([""], ["/"] or ["//"]) and its components. *)
Record Path := mkPath { root : string; tail : list string }.

(** [posixpath.splitroot] *)
Definition splitroot (p : string) : string * string :=
  if negb (Py.startswith p "/") then ("", p)
  else if negb (Py.startswith (Py.drop 1 p) "/") || Py.startswith (Py.drop 2 p) "/"
       then ("/", Py.drop 1 p)
       else ("//", Py.drop 2 p).

Definition keep_part (x : string) : bool :=
  negb (String.eqb x "") && negb (String.eqb x ".").

(** [pathlib.Path(s)]: empty and ["."] components are dropped. *)
Definition parse (s : string) : Path :=
  if String.eqb s "" then mkPath "" []
  else
    let '(r, rel) := splitroot s in
    mkPath r (List.filter keep_part (Py.split "/" rel)).

(** [str(path)] *)
Definition str (p : Path) : string :=
  let s := root p +:+ Py.join "/" (tail p) in
  if String.eqb s "" then "." else s.

(** [path.name] *)
Definition name (p : Path) : string :=
  match tail p with
  | [] => ""
  | _ => Py.last_item (tail p)
  end.

(** [path.suffix]: the last dot of the name and what follows, unless the
    dot is the first or the last character of the name. *)
Definition suffix (p : Path) : string :=
  let n := name p in
  match Py.rfind "." n with
  | Some i =>
      if (0 <? i)%nat && (i <? String.length n - 1)%nat then Py.drop i n else ""
  | None => ""
  end.

(** [path.parent] *)
Definition parent (p : Path) : Path :=
  match tail p with
  | [] => p
  | _ => mkPath (root p) (removelast (tail p))
  end.

(** [posixpath.join(a, b)] *)
Definition posix_join (a b : string) : string :=
  if Py.startswith b "/" then b
  else if String.eqb a "" || Py.endswith a "/" then a +:+ b
  else a +:+ "/" +:+ b.

(** [path.joinpath(other)] for a string [other] *)
Definition joinpath (p : Path) (other : string) : Path :=
  parse (posix_join (str p) other).

(** The paths [parse] produces: a POSIX root, and components that are
    not empty, not ["."] and hold no separator. *)
Definition wf_part (x : string) : bool :=
  keep_part x
  && match Py.find "/" x with
     | None => true
     | Some _ => false
     end.

Definition wf (p : Path) : bool :=
  Py.contains [""; "/"; "//"] (root p) && forallb wf_part (tail p).

End pathlib.

(** ** Exceptions

    The program raises [ValueError], [NotImplementedError] and
    [RuntimeError] itself.  Whatever a collaborator raises (the file
    system, [zipfile], pandas, the Kaggle client, [urlparse]) is kept
    apart as [Foreign], with the class name and the message. *)

Record external := mkExternal { exn_class : string; exn_msg : string }.

Inductive exn :=
| ValueError (msg : string)
| NotImplementedError (msg : string)
| RuntimeError (msg : string)
| Foreign (e : external).

Inductive result (A : Type) :=
| Ok (a : A)
| Raise (e : exn).
Arguments Ok {A} a.
Arguments Raise {A} e.

(** The error kinds of the specification, and the raise sites of the
    program they name. *)
Inductive ErrorKind :=
| InvalidRequest
| PathNotFound
| UnsupportedFormat
| InvalidUrl
| RemoteDownloadFailed.

Definition msg_invalid_combination : string :=
  "Invalid combination of given parameters".
Definition msg_not_a_file : string := "'path' is not a file".
Definition msg_invalid_extension : string := "Invalid 'path' extension".
Definition msg_invalid_netloc (given : string) : string :=
  "Invalid URL netloc. Expected: www.kaggle.com. Given: " +:+ given.
Definition msg_invalid_url_path (given : string) : string :=
  "Invalid URL path: '" +:+ given
  +:+ "'. The expected value starts with: '/competitions/' or '/datasets/'".
Definition msg_download_failed : string :=
  "Unable to download standalone dataset".

Definition kind_of (e : exn) : option ErrorKind :=
  match e with
  | ValueError m =>
      if String.eqb m msg_invalid_combination then Some InvalidRequest
      else if String.eqb m msg_not_a_file then Some PathNotFound
      else if String.eqb m msg_invalid_extension then Some UnsupportedFormat
      else if Py.startswith m "Invalid URL " then Some InvalidUrl
      else None
  | NotImplementedError _ => Some UnsupportedFormat
  | RuntimeError _ => Some RemoteDownloadFailed
  | Foreign _ => None
  end.

(** ** Collaborator calls and the trace *)

Inductive event :=
| EResolve (p : string)
| EIsFile (p : string)
| EPrint (line : string)
| EReadCsv (p sep : string)
| EExtractAll (archive folder : string)
| EMkdir (p : string) (parents exist_ok : bool)
| EAuthenticate
| ECompetitionDownload (competition file_name dest : string) (force : bool)
| EDatasetDownload (dataset file_name dest : string) (force : bool).

(** [pathlib.Path] methods that touch the disk, and [zipfile].
    [resolve] and [is_file] read the disk and leave it as it is; each
    may raise ([RuntimeError] on a symlink loop, [OSError] for a name
    too long or a directory that may not be searched). *)
Class FileSystem (World : Type) := {
  resolve : pathlib.Path -> World -> external + pathlib.Path;
  is_file : pathlib.Path -> World -> external + bool;
  mkdir : pathlib.Path -> bool -> bool -> World -> (external + unit) * World;
  (** [with ZipFile(archive, "r") as z: z.extractall(folder)] *)
  extractall : string -> string -> World -> (external + unit) * World
}.

(** [pandas.read_csv(path, sep=sep)] *)
Class Pandas (World DataFrame : Type) := {
  read_csv : string -> string -> World -> (external + DataFrame) * World
}.

(** [kaggle.api.kaggle_api_extended.KaggleApi] *)
Class KaggleApi (World : Type) := {
  authenticate : World -> (external + unit) * World;
  competition_download_file :
    string -> string -> string -> bool -> World -> (external + unit) * World;
  dataset_download_file :
    string -> string -> string -> bool -> World -> (external + bool) * World
}.

(** [urllib.parse.urlparse] *)
Class UrlParser := {
  urlparse : string -> external + urllib.ParseResult
}.

Record state (World : Type) := mkState {
  world : World;
  trace : list event
}.
Arguments mkState {World} world trace.
Arguments world {World} s.
Arguments trace {World} s.

(** A computation: [None] when the recursion budget of the model is
    exhausted, otherwise a value or a raised exception, and the state
    reached. *)
Definition M (World A : Type) : Type :=
  state World -> option (result A * state World).

Definition ret {World A} (a : A) : M World A :=
  fun st => Some (Ok a, st).

Definition raise {World A} (e : exn) : M World A :=
  fun st => Some (Raise e, st).

Definition bind {World A B} (m : M World A) (k : A -> M World B) : M World B :=
  fun st =>
    match m st with
    | None => None
    | Some (Ok a, st') => k a st'
    | Some (Raise e, st') => Some (Raise e, st')
    end.

Definition out_of_fuel {World A} : M World A := fun _ => None.

(** A call to a collaborator: logged, and its exception, if any, raised. *)
Definition call {World A} (ev : event)
    (h : World -> (external + A) * World) : M World A :=
  fun st =>
    let '(r, w) := h (world st) in
    let st' := mkState w (trace st ++ [ev]) in
    match r with
    | inl e => Some (Raise (Foreign e), st')
    | inr a => Some (Ok a, st')
    end.

(** A read-only query of the world, logged as well. *)
Definition ask {World A} (ev : event) (q : World -> A) : M World A :=
  call ev (fun w => (inr (q w), w)).

(** A read-only query of the world that may raise, logged as well. *)
Definition query {World A} (ev : event) (q : World -> external + A) : M World A :=
  call ev (fun w => (q w, w)).

(** A pure library function that may raise. *)
Definition lift {World A} (r : external + A) : M World A :=
  match r with
  | inl e => raise (Foreign e)
  | inr a => ret a
  end.

(** What a caller observes of a run: the result and the calls made. *)
Definition outcome {World A} (r : option (result A * state World))
    : option (result A * list event) :=
  option_map (fun x => (fst x, trace (snd x))) r.

Declare Scope loader_scope.
Delimit Scope loader_scope with loader.
Notation "x <- c1 ;; c2" := (bind c1 (fun x => c2))
  (at level 100, c1 at next level, right associativity) : loader_scope.
Notation "c1 ;; c2" := (bind c1 (fun _ => c2))
  (at level 100, right associativity) : loader_scope.

(** ** class Data *)

Definition TAB : string := String (ascii_of_nat 9) EmptyString.

(** The slots of a [Data] object after construction; a slot the
    constructor did not assign is [None] ([false] for [kaggle_api]). *)
Record Data (DataFrame : Type) := mkData {
  path : option pathlib.Path;
  data : DataFrame;
  kaggle_api : bool;
  download_path : option pathlib.Path
}.
Arguments mkData {DataFrame} path data kaggle_api download_path.

(** The path the [.zip] branch of [load] recurses on:
    [pathlib.Path(str(path)[:-len(path.suffix)])]. *)
Definition extracted (path : pathlib.Path) : pathlib.Path :=
  pathlib.parse (Py.drop_end (String.length (pathlib.suffix path)) (pathlib.str path)).

Section Loader.

Context {World DataFrame : Type}.
Context {FS : FileSystem World} {PD : Pandas World DataFrame}.
Context {KA : KaggleApi World} {UP : UrlParser}.

Local Open Scope loader_scope.

Definition supported_formats : list string := [".txt"; ".csv"].

Definition supported_formats_repr : string := "['.txt', '.csv']".

Definition validate_local_path (path : pathlib.Path) : M World unit :=
  isf <- query (EIsFile (pathlib.str path)) (is_file path) ;;
  if negb isf then raise (ValueError msg_not_a_file)
  else if negb (Py.contains supported_formats (pathlib.suffix path)) then
    ask (EPrint ("Supported formats " +:+ supported_formats_repr)) (fun _ => tt) ;;
    raise (ValueError msg_invalid_extension)
  else ret tt.

(** [load], with the depth of the recursion bounded by [fuel]. *)
Fixpoint load_fuel (fuel : nat) (path : pathlib.Path) : M World DataFrame :=
  match fuel with
  | O => out_of_fuel
  | S fuel' =>
      if Py.contains [".csv"; ".txt"] (pathlib.suffix path) then
        call (EReadCsv (pathlib.str path) ",") (read_csv (pathlib.str path) ",")
      else if String.eqb (pathlib.suffix path) ".tsv" then
        call (EReadCsv (pathlib.str path) TAB) (read_csv (pathlib.str path) TAB)
      else if String.eqb (pathlib.suffix path) ".zip" then
        let extract_folder := pathlib.str (pathlib.parent path) in
        let extracted_file_path :=
          pathlib.parse
            (Py.drop_end (String.length (pathlib.suffix path)) (pathlib.str path)) in
        call (EExtractAll (pathlib.str path) extract_folder)
             (extractall (pathlib.str path) extract_folder) ;;
        load_fuel fuel' extracted_file_path
      else raise (NotImplementedError ("load " +:+ pathlib.suffix path))
  end.

(** Every [.zip] step removes four characters from the path, so the
    length of the path is fuel enough (see [load_total]). *)
Definition load (path : pathlib.Path) : M World DataFrame :=
  load_fuel (String.length (pathlib.str path)) path.

Definition kaggle_load (self_download_path : pathlib.Path) (url file : string)
    : M World DataFrame :=
  url_components <- lift (urlparse url) ;;
  if negb (String.eqb (urllib.netloc url_components) "www.kaggle.com") then
    raise (ValueError (msg_invalid_netloc (urllib.netloc url_components)))
  else
    download_path <-
      (if Py.startswith (urllib.path url_components) "/competitions/" then
         let competition_name := Py.drop 14 (urllib.path url_components) in
         let competition_name :=
           if Py.endswith competition_name "/data"
           then Py.drop_end 5 competition_name else competition_name in
         let download_path :=
           pathlib.joinpath self_download_path (urllib.quote competition_name) in
         call (EMkdir (pathlib.str download_path) true true)
              (mkdir download_path true true) ;;
         call (ECompetitionDownload competition_name file (pathlib.str download_path) true)
              (competition_download_file competition_name file
                 (pathlib.str download_path) true) ;;
         ret download_path
       else if Py.startswith (urllib.path url_components) "/datasets/" then
         let dataset_id := Py.drop 10 (urllib.path url_components) in
         let dataset_name := Py.last_item (Py.split "/" dataset_id) in
         let download_path :=
           pathlib.joinpath self_download_path (urllib.quote dataset_name) in
         call (EMkdir (pathlib.str download_path) true true)
              (mkdir download_path true true) ;;
         downloaded <-
           call (EDatasetDownload dataset_id file (pathlib.str download_path) true)
                (dataset_download_file dataset_id file
                   (pathlib.str download_path) true) ;;
         if negb downloaded then raise (RuntimeError msg_download_failed)
         else ret download_path
       else
         raise (ValueError (msg_invalid_url_path (urllib.path url_components)))) ;;
    let downloaded_file_path := pathlib.joinpath download_path (urllib.quote file) in
    load downloaded_file_path.

(** What the two branches of [kaggle_load] do once the resource
    identifier and the name of the destination subdirectory are known:
    create the directory, call the client, load the downloaded file.
    [kaggle_load] is compared with them in [kaggle_load_competition] and
    [kaggle_load_dataset]. *)
Definition competition_branch (self_download_path : pathlib.Path)
    (competition_name file : string) : M World DataFrame :=
  let download_path :=
    pathlib.joinpath self_download_path (urllib.quote competition_name) in
  call (EMkdir (pathlib.str download_path) true true)
       (mkdir download_path true true) ;;
  call (ECompetitionDownload competition_name file (pathlib.str download_path) true)
       (competition_download_file competition_name file
          (pathlib.str download_path) true) ;;
  load (pathlib.joinpath download_path (urllib.quote file)).

Definition dataset_branch (self_download_path : pathlib.Path)
    (dataset_id dataset_name file : string) : M World DataFrame :=
  let download_path :=
    pathlib.joinpath self_download_path (urllib.quote dataset_name) in
  call (EMkdir (pathlib.str download_path) true true)
       (mkdir download_path true true) ;;
  downloaded <-
    call (EDatasetDownload dataset_id file (pathlib.str download_path) true)
         (dataset_download_file dataset_id file (pathlib.str download_path) true) ;;
  if negb downloaded then raise (RuntimeError msg_download_failed)
  else load (pathlib.joinpath download_path (urllib.quote file)).

(** [o is not None] *)
Definition is_not_None (o : option string) : bool :=
  match o with
  | Some _ => true
  | None => false
  end.

(** The string held by an argument (read only where it is not [None]). *)
Definition given (o : option string) : string :=
  match o with
  | Some s => s
  | None => ""
  end.

Definition __init__ (path kaggle_url kaggle_file download_path : option string)
    : M World (Data DataFrame) :=
  if is_not_None path
     && negb (Py.all [Py.truthy kaggle_url; Py.truthy kaggle_file; Py.truthy download_path])
  then
    let path := pathlib.parse (given path) in
    validate_local_path path ;;
    df <- load path ;;
    ret (mkData (Some path) df false None)
  else if Py.all [Py.truthy kaggle_url; Py.truthy kaggle_file; Py.truthy download_path]
          && negb (is_not_None path)
  then
    self_download_path <-
      query (EResolve (pathlib.str (pathlib.parse (given download_path))))
            (resolve (pathlib.parse (given download_path))) ;;
    call EAuthenticate authenticate ;;
    df <- kaggle_load self_download_path (given kaggle_url) (given kaggle_file) ;;
    ret (mkData None df true (Some self_download_path))
  else raise (ValueError msg_invalid_combination).

End Loader.

(** ** A simulated world

    A small executable instance of the collaborators, used to run the
    loader on concrete requests: a disk of regular files and
    directories, a Kaggle service holding files per competition and per
    dataset, a line-and-separator reader for [read_csv], and
    [urlparse] on URLs of the shape [scheme://netloc/path?query#fragment]. *)

Module Sim.

#[local] Set Warnings "-register-all".
Inductive filedata :=
| Text (content : string)
| Archive (members : list (string * filedata)).

Record world := mkWorld {
  cwd : pathlib.Path;
  files : gmap string filedata;
  dirs : gset string;
  credentials : bool;
  competitions : list (string * string * filedata);
  datasets : list (string * string * filedata)
}.

Definition DataFrame : Type := list (list string).

Definition with_files (w : world) (fs : gmap string filedata) : world :=
  mkWorld (cwd w) fs (dirs w) (credentials w) (competitions w) (datasets w).

Definition with_dirs (w : world) (ds : gset string) : world :=
  mkWorld (cwd w) (files w) ds (credentials w) (competitions w) (datasets w).

Definition raising {A} (cls msg : string) (w : world) : (external + A) * world :=
  (inl (mkExternal cls msg), w).

(** [..] removes the component before it; at the root it is dropped. *)
Fixpoint collapse (done todo : list string) : list string :=
  match todo with
  | [] => rev done
  | x :: rest =>
      if String.eqb x ".." then collapse (List.tl done) rest
      else collapse (x :: done) rest
  end.

(** The disk holds no symbolic link: [resolve] makes the path absolute
    and collapses [..]. *)
Definition sim_resolve (p : pathlib.Path) (w : world) : external + pathlib.Path :=
  let a :=
    if String.eqb (pathlib.root p) "" then pathlib.joinpath (cwd w) (pathlib.str p)
    else p in
  inr (pathlib.mkPath (pathlib.root a) (collapse [] (pathlib.tail a))).

(** A component of more than 255 bytes is refused by the system
    ([ENAMETOOLONG]), an error [is_file] does not swallow. *)
Definition name_too_long (p : pathlib.Path) : bool :=
  existsb (fun c => (255 <? String.length c)%nat) (pathlib.tail p).

Definition sim_is_file (p : pathlib.Path) (w : world) : external + bool :=
  if name_too_long p then inl (mkExternal "OSError" "[Errno 36] File name too long")
  else
    match files w !! pathlib.str p with
    | Some _ => inr true
    | None => inr false
    end.

Definition sim_mkdir (p : pathlib.Path) (parents exist_ok : bool) (w : world)
    : (external + unit) * world :=
  match files w !! pathlib.str p with
  | Some _ => raising "FileExistsError" (pathlib.str p) w
  | None =>
      if bool_decide (pathlib.str p ∈ dirs w) && negb exist_ok
      then raising "FileExistsError" (pathlib.str p) w
      else (inr tt, with_dirs w ({[ pathlib.str p ]} ∪ dirs w))
  end.

Definition write_members (folder : string) (ms : list (string * filedata))
    (fs : gmap string filedata) : gmap string filedata :=
  fold_left
    (fun acc m => <[ pathlib.str (pathlib.parse (pathlib.posix_join folder (fst m))) := snd m ]> acc)
    ms fs.

Definition sim_extractall (archive folder : string) (w : world)
    : (external + unit) * world :=
  match files w !! archive with
  | None => raising "FileNotFoundError" archive w
  | Some (Text _) => raising "BadZipFile" "File is not a zip file" w
  | Some (Archive ms) => (inr tt, with_files w (write_members folder ms (files w)))
  end.

Definition sim_table (sep content : string) : DataFrame :=
  match sep with
  | String c _ => map (Py.split c) (Py.split (ascii_of_nat 10) content)
  | EmptyString => [[content]]
  end.

Definition sim_read_csv (p sep : string) (w : world)
    : (external + DataFrame) * world :=
  match files w !! p with
  | None => raising "FileNotFoundError" p w
  | Some (Text c) => (inr (sim_table sep c), w)
  | Some (Archive _) => raising "ParserError" "Error tokenizing data" w
  end.

Definition sim_authenticate (w : world) : (external + unit) * world :=
  if credentials w then (inr tt, w)
  else raising "SystemExit" "1" w.

Fixpoint remote_lookup (l : list (string * string * filedata)) (id file : string)
    : option filedata :=
  match l with
  | [] => None
  | (i, f, d) :: rest =>
      if String.eqb i id && String.eqb f file then Some d
      else remote_lookup rest id file
  end.

Definition save_download (dest file : string) (d : filedata) (w : world) : world :=
  with_files w
    (<[ pathlib.str (pathlib.parse (pathlib.posix_join dest (urllib.quote file))) := d ]>
       (files w)).

(** A missing competition file is an [ApiException]. *)
Definition sim_competition_download_file (competition file_name dest : string)
    (force : bool) (w : world) : (external + unit) * world :=
  match remote_lookup (competitions w) competition file_name with
  | None => raising "ApiException" "(404) Not Found" w
  | Some d => (inr tt, save_download dest file_name d w)
  end.

(** A missing dataset file is reported by returning [False]. *)
Definition sim_dataset_download_file (dataset file_name dest : string)
    (force : bool) (w : world) : (external + bool) * world :=
  match remote_lookup (datasets w) dataset file_name with
  | None => (inr false, w)
  | Some d => (inr true, save_download dest file_name d w)
  end.

(** [str.partition(c)] without the separator, for [urlsplit]. *)
Definition cut (c : ascii) (s : string) : string * string :=
  match Py.find c s with
  | Some i => (Py.take i s, Py.drop (S i) s)
  | None => (s, "")
  end.

Definition is_alpha (c : ascii) : bool :=
  let n := nat_of_ascii c in
  ((65 <=? n)%nat && (n <=? 90)%nat) || ((97 <=? n)%nat && (n <=? 122)%nat).

Definition scheme_char (c : ascii) : bool :=
  let n := nat_of_ascii c in
  is_alpha c || ((48 <=? n)%nat && (n <=? 57)%nat)
  || Ascii.eqb c "+" || Ascii.eqb c "-" || Ascii.eqb c ".".

Definition first_is_alpha (s : string) : bool :=
  match s with
  | String c _ => is_alpha c
  | EmptyString => false
  end.

(** Index of the first of [/?#] in [s], or its length. *)
Fixpoint netloc_end (s : string) : nat :=
  match s with
  | EmptyString => O
  | String c s' =>
      if Ascii.eqb c "/" || Ascii.eqb c "?" || Ascii.eqb c "#" then O
      else S (netloc_end s')
  end.

Definition has_char (c : ascii) (s : string) : bool :=
  match Py.find c s with
  | Some _ => true
  | None => false
  end.

Definition uses_params : list string :=
  [""; "ftp"; "hdl"; "prospero"; "http"; "imap"; "https"; "shttp"; "rtsp";
   "rtspu"; "sip"; "sips"; "mms"; "sftp"; "tel"].

(** [_splitparams]: the parameters follow the first [;] of the last
    path segment. *)
Definition splitparams (url : string) : string * string :=
  match Py.rfind "/" url with
  | Some k =>
      match Py.find ";" (Py.drop k url) with
      | Some j => (Py.take (k + j) url, Py.drop (S (k + j)) url)
      | None => (url, "")
      end
  | None => cut ";" url
  end.

Definition sim_urlparse (url : string) : external + urllib.ParseResult :=
  let '(scheme, url) :=
    match Py.find ":" url with
    | Some i =>
        if (0 <? i)%nat && first_is_alpha url
           && forallb scheme_char (list_ascii_of_string (Py.take i url))
        then (Py.lower (Py.take i url), Py.drop (S i) url)
        else ("", url)
    | None => ("", url)
    end in
  let '(netloc, url) :=
    if String.eqb (Py.take 2 url) "//"
    then (Py.take (netloc_end (Py.drop 2 url)) (Py.drop 2 url),
          Py.drop (netloc_end (Py.drop 2 url)) (Py.drop 2 url))
    else ("", url) in
  if xorb (has_char "[" netloc) (has_char "]" netloc)
  then inl (mkExternal "ValueError" "Invalid IPv6 URL")
  else
    let '(url, fragment) := cut "#" url in
    let '(url, query) := cut "?" url in
    let '(url, params) :=
      if Py.contains uses_params scheme && has_char ";" url then splitparams url
      else (url, "") in
    inr (urllib.mkParseResult scheme netloc url params query fragment).

#[global] Instance sim_fs : FileSystem world := {|
  resolve := sim_resolve;
  is_file := sim_is_file;
  mkdir := sim_mkdir;
  extractall := sim_extractall
|}.

#[global] Instance sim_pandas : Pandas world DataFrame := {|
  read_csv := sim_read_csv
|}.

#[global] Instance sim_kaggle : KaggleApi world := {|
  authenticate := sim_authenticate;
  competition_download_file := sim_competition_download_file;
  dataset_download_file := sim_dataset_download_file
|}.

#[global] Instance sim_urlparser : UrlParser := {|
  urlparse := sim_urlparse
|}.

Definition start (w : world) : state world := mkState w [].

(** A disk, a service and a user for the examples. *)
Definition disk : gmap string filedata :=
  <[ "/home/u/a.csv" := Text "A,B" ]>
  (<[ "/home/u/b.CSV" := Text "A,B" ]>
  (<[ "/data/x.csv.zip.zip" :=
        Archive [("x.csv.zip", Archive [("x.csv", Text "c,d")])] ]>
  (<[ "/data/e.csv.zip" := Archive [("other.csv", Text "c,d")] ]>
  (<[ "/data/t.tsv.zip" := Archive [("t.tsv", Text ("p" +:+ TAB +:+ "q"))] ]> ∅)))).

Definition w0 : world :=
  mkWorld (pathlib.parse "/home/u") disk {[ "/data"; "/home/u" ]} true
    [("comp-x", "test.tsv.zip", Archive [("test.tsv", Text ("p" +:+ TAB +:+ "q"))])]
    [("owner/name", "f.csv", Text "h1,h2");
     ("x", "f.csv", Text "h1,h2");
     ("", "f.csv", Text "h1,h2")].

End Sim.

(** ** A world in which every call succeeds

    The collaborators as a test double would provide them: nothing
    fails, [read_csv] returns the path it was given.  The paths
    [nested n] carry [n] suffixes [.zip]. *)

Module Mock.

#[global] Instance mock_fs : FileSystem unit := {|
  resolve := fun p _ => inr p;
  is_file := fun _ _ => inr true;
  mkdir := fun _ _ _ w => (inr tt, w);
  extractall := fun _ _ w => (inr tt, w)
|}.

#[global] Instance mock_pandas : Pandas unit string := {|
  read_csv := fun p _ w => (inr p, w)
|}.

#[global] Instance mock_kaggle : KaggleApi unit := {|
  authenticate := fun w => (inr tt, w);
  competition_download_file := fun _ _ _ _ w => (inr tt, w);
  dataset_download_file := fun _ _ _ _ w => (inr true, w)
|}.

Fixpoint zips (n : nat) (s : string) : string :=
  match n with
  | O => s
  | S n' => zips n' s +:+ ".zip"
  end.

Definition nested (n : nat) : pathlib.Path :=
  pathlib.mkPath "/" ["d"; zips n "x.csv"].

(** The extractions [load (nested n)] performs, outermost first. *)
Fixpoint extractions (n : nat) : list event :=
  match n with
  | O => []
  | S n' => EExtractAll (pathlib.str (nested n)) "/d" :: extractions n'
  end.

End Mock.

(** ** A world whose disk cannot be read

    [resolve] finds a symlink loop and [is_file] may not search the
    directory; every other call succeeds. *)

Module Broken.

Inductive world := Disk.

#[global] Instance broken_fs : FileSystem world := {|
  resolve := fun p _ =>
    inl (mkExternal "RuntimeError" ("Symlink loop from " +:+ pathlib.str p));
  is_file := fun p _ =>
    inl (mkExternal "PermissionError" ("[Errno 13] Permission denied: " +:+ pathlib.str p));
  mkdir := fun _ _ _ w => (inr tt, w);
  extractall := fun _ _ w => (inr tt, w)
|}.

#[global] Instance broken_pandas : Pandas world string := {|
  read_csv := fun p _ w => (inr p, w)
|}.

#[global] Instance broken_kaggle : KaggleApi world := {|
  authenticate := fun w => (inr tt, w);
  competition_download_file := fun _ _ _ _ w => (inr tt, w);
  dataset_download_file := fun _ _ _ _ w => (inr true, w)
|}.

End Broken.

(** ** Shapes of traces

    Predicates on the calls of a run, used to say what [load] and
    [kaggle_load] call and in which order. *)

Definition is_extract (e : event) : bool :=
  match e with
  | EExtractAll _ _ => true
  | _ => false
  end.

Definition is_read (e : event) : bool :=
  match e with
  | EReadCsv _ _ => true
  | _ => false
  end.

(** A download into the directory [d], with [force=True]. *)
Definition is_download_to (d : string) (e : event) : bool :=
  match e with
  | ECompetitionDownload _ _ d' true => String.eqb d' d
  | EDatasetDownload _ _ d' true => String.eqb d' d
  | _ => false
  end.

(** Nothing; or the creation of a directory with [parents=True,
    exist_ok=True]; or that, one download into the same directory, and
    then calls of [extractall] and [read_csv] only. *)
Definition fetch_shape (es : list event) : bool :=
  match es with
  | [] => true
  | EMkdir d true true :: rest =>
      match rest with
      | [] => true
      | e :: rest' =>
          is_download_to d e && forallb (fun x => is_extract x || is_read x) rest'
      end
  | _ => false
  end.

(** The competition name [kaggle_load] derives from a URL path. *)
Definition competition_name_of (url_path : string) : string :=
  if Py.endswith (Py.drop 14 url_path) "/data"
  then Py.drop_end 5 (Py.drop 14 url_path)
  else Py.drop 14 url_path.



(** The example user without Kaggle credentials. *)
Definition w_nocred : Sim.world :=
  Sim.mkWorld (Sim.cwd Sim.w0) (Sim.files Sim.w0) (Sim.dirs Sim.w0) false
    (Sim.competitions Sim.w0) (Sim.datasets Sim.w0).

(** * Facts *)

(** Case analysis on the test of the first conditional of the goal. *)
Ltac case_if E :=
  match goal with
  | |- context [if ?b then _ else _] => destruct b eqn:E
  end.

(** ** Strings *)

Lemma length_append (a b : string) :
  String.length (a +:+ b) = String.length a + String.length b.
Proof. induction a as [|c a IH]; simpl; [reflexivity | now rewrite IH]. Qed.

Lemma length_take (n : nat) (s : string) :
  String.length (Py.take n s) = Nat.min n (String.length s).
Proof.
  revert s; induction n as [|n IH]; intros [|c s]; simpl; auto.
Qed.

Lemma length_drop (n : nat) (s : string) :
  String.length (Py.drop n s) = String.length s - n.
Proof.
  revert s; induction n as [|n IH]; intros [|c s]; simpl; auto.
Qed.

Lemma take_append (a b : string) : Py.take (String.length a) (a +:+ b) = a.
Proof. induction a as [|c a IH]; simpl; [now destruct b | now rewrite IH]. Qed.

Lemma drop_append (a b : string) : Py.drop (String.length a) (a +:+ b) = b.
Proof. induction a as [|c a IH]; simpl; auto. Qed.

Lemma length_join (l : list string) :
  String.length (Py.join "/" l) = Py.join_length l.
Proof.
  induction l as [|x l IH]; [reflexivity|].
  destruct l as [|y l]; [reflexivity|].
  change (Py.join "/" (x :: y :: l)) with (x +:+ "/" +:+ Py.join "/" (y :: l)).
  change (Py.join_length (x :: y :: l)) with (String.length x + 1 + Py.join_length (y :: l)).
  rewrite !length_append, IH. simpl. lia.
Qed.

Lemma join_length_cons (x : string) (l : list string) :
  Py.join_length l <= Py.join_length (x :: l) /\
  Py.join_length (x :: l) <= String.length x + 1 + Py.join_length l.
Proof. destruct l; simpl; lia. Qed.

Lemma join_length_filter (f : string -> bool) (l : list string) :
  Py.join_length (List.filter f l) <= Py.join_length l.
Proof.
  induction l as [|x l IH]; simpl List.filter; auto.
  destruct (f x).
  - destruct l as [|y l]; [simpl; lia|].
    destruct (List.filter f (y :: l)) as [|z r] eqn:E.
    + simpl. lia.
    + change (Py.join_length (x :: z :: r)) with (String.length x + 1 + Py.join_length (z :: r)).
      change (Py.join_length (x :: y :: l)) with (String.length x + 1 + Py.join_length (y :: l)).
      lia.
  - pose proof (join_length_cons x l). lia.
Qed.

Lemma split_nonempty (c : ascii) (s : string) : Py.split c s <> [].
Proof. induction s as [|a s IH]; simpl; [discriminate|]. destruct (Ascii.eqb a c); [discriminate|]. destruct (Py.split c s); discriminate. Qed.

Lemma join_split (s : string) : Py.join "/" (Py.split "/" s) = s.
Proof.
  induction s as [|a s IH]; simpl; auto.
  destruct (Ascii.eqb a "/") eqn:E.
  - apply Ascii.eqb_eq in E. subst a.
    destruct (Py.split "/" s) as [|w ws] eqn:S; [now apply split_nonempty in S|].
    change (Py.join "/" ("" :: w :: ws)) with ("" +:+ "/" +:+ Py.join "/" (w :: ws)).
    rewrite IH. reflexivity.
  - destruct (Py.split "/" s) as [|w ws] eqn:S; [now apply split_nonempty in S|].
    destruct ws as [|v ws]; simpl in *; now rewrite <- IH.
Qed.

Lemma startswith_slash (s : string) :
  Py.startswith s "/" = true -> exists r, s = String "/" r.
Proof.
  destruct s as [|a s]; simpl; [discriminate|].
  destruct (Ascii.eqb a "/") eqn:E; [|discriminate].
  apply Ascii.eqb_eq in E. subst a. eauto.
Qed.

Lemma splitroot_length (s r rel : string) :
  pathlib.splitroot s = (r, rel) ->
  String.length r + String.length rel = String.length s.
Proof.
  unfold pathlib.splitroot.
  destruct (Py.startswith s "/") eqn:E1; cbn [negb].
  - apply startswith_slash in E1 as [t ->]. cbn [Py.drop].
    destruct (Py.startswith t "/") eqn:E2; cbn [negb orb].
    + apply startswith_slash in E2 as [u ->]. cbn [Py.drop].
      destruct (Py.startswith u "/"); intros [= <- <-]; simpl; lia.
    + intros [= <- <-]; simpl; lia.
  - intros [= <- <-]; reflexivity.
Qed.

Lemma str_length_pos (p : pathlib.Path) : 1 <= String.length (pathlib.str p).
Proof.
  unfold pathlib.str.
  case_if E; [simpl; lia|].
  destruct (pathlib.root p +:+ Py.join "/" (pathlib.tail p)); [discriminate | simpl; lia].
Qed.

Lemma str_parse_length (s : string) :
  s <> "" -> String.length (pathlib.str (pathlib.parse s)) <= String.length s.
Proof.
  intros Hs. unfold pathlib.parse.
  destruct (String.eqb s "") eqn:E; [apply String.eqb_eq in E; contradiction|].
  destruct (pathlib.splitroot s) as [r rel] eqn:S.
  apply splitroot_length in S.
  unfold pathlib.str; simpl pathlib.root; simpl pathlib.tail.
  case_if E2.
  - destruct s; [contradiction | simpl; lia].
  - rewrite length_append, length_join.
    pose proof (join_length_filter pathlib.keep_part (Py.split "/" rel)) as H.
    rewrite <- (length_join (Py.split "/" rel)), join_split in H. lia.
Qed.

Lemma join_length_last (l : list string) :
  String.length (List.last l "") <= Py.join_length l.
Proof.
  induction l as [|x l IH]; [simpl; lia|].
  destruct l as [|y l]; [simpl; lia|].
  change (List.last (x :: y :: l) "") with (List.last (y :: l) "").
  change (Py.join_length (x :: y :: l)) with (String.length x + 1 + Py.join_length (y :: l)).
  lia.
Qed.

Lemma name_length (p : pathlib.Path) :
  String.length (pathlib.name p) <= String.length (pathlib.str p).
Proof.
  unfold pathlib.name, pathlib.str.
  destruct (pathlib.tail p) as [|x l] eqn:T; [simpl; lia|].
  pose proof (join_length_last (x :: l)) as H. rewrite <- length_join in H.
  unfold Py.last_item.
  case_if E.
  - apply String.eqb_eq in E. apply (f_equal String.length) in E.
    rewrite length_append in E. change (String.length "") with 0 in E. lia.
  - rewrite length_append. lia.
Qed.

Lemma suffix_length (p : pathlib.Path) :
  pathlib.suffix p <> "" ->
  String.length (pathlib.suffix p) < String.length (pathlib.name p).
Proof.
  unfold pathlib.suffix.
  destruct (Py.rfind "." (pathlib.name p)) as [i|]; [|congruence].
  destruct (0 <? i)%nat eqn:E1; simpl; [|congruence].
  destruct (i <? _)%nat eqn:E2; simpl; [|congruence].
  intros _. rewrite length_drop.
  apply Nat.ltb_lt in E1. apply Nat.ltb_lt in E2. lia.
Qed.

Lemma zip_step_shorter (p : pathlib.Path) :
  pathlib.suffix p = ".zip" ->
  String.length
    (pathlib.str
       (pathlib.parse
          (Py.drop_end (String.length (pathlib.suffix p)) (pathlib.str p))))
  + 4 <= String.length (pathlib.str p).
Proof.
  intros Hz.
  assert (Hn : 4 < String.length (pathlib.name p)).
  { pose proof (suffix_length p) as H. rewrite Hz in H. simpl in H.
    apply H. discriminate. }
  pose proof (name_length p) as Hs.
  rewrite Hz. simpl String.length. unfold Py.drop_end.
  set (t := Py.take (String.length (pathlib.str p) - 4) (pathlib.str p)).
  assert (Ht : String.length t = String.length (pathlib.str p) - 4).
  { unfold t. rewrite length_take. lia. }
  assert (Hne : t <> "") by (intros E; rewrite E in Ht; simpl in Ht; lia).
  pose proof (str_parse_length t Hne). lia.
Qed.

Lemma split_app (c : ascii) (a b : string) :
  Py.split c (a +:+ String c b) = Py.split c a ++ Py.split c b.
Proof.
  induction a as [|x a IH]; simpl.
  - now rewrite Ascii.eqb_refl.
  - destruct (Ascii.eqb x c); rewrite IH; [reflexivity|].
    destruct (Py.split c a) as [|w ws] eqn:S; [now apply split_nonempty in S|].
    reflexivity.
Qed.

Lemma split_no_sep (c : ascii) (x : string) :
  Py.find c x = None -> Py.split c x = [x].
Proof.
  induction x as [|a x IH]; simpl; [reflexivity|].
  destruct (Ascii.eqb a c); [discriminate|].
  destruct (Py.find c x); [discriminate|].
  intros _. now rewrite IH.
Qed.

Lemma last_item_app (l1 l2 : list string) :
  l2 <> [] -> Py.last_item (l1 ++ l2) = Py.last_item l2.
Proof.
  intros H. unfold Py.last_item. induction l1 as [|x l1 IH]; [reflexivity|].
  simpl. destruct (l1 ++ l2) eqn:E; [|exact IH].
  apply app_eq_nil in E as [_ ->]. contradiction.
Qed.

(** The last [/]-separated segment of [a/name] is [name]. *)
Lemma last_segment (a name : string) :
  Py.find "/" name = None ->
  Py.last_item (Py.split "/" (a +:+ "/" +:+ name)) = name.
Proof.
  intros H. change (a +:+ "/" +:+ name) with (a +:+ String "/" name).
  rewrite split_app, last_item_app by apply split_nonempty.
  now rewrite split_no_sep.
Qed.

Lemma append_empty (s : string) : s +:+ "" = s.
Proof.
  induction s as [|c s IH]; [reflexivity|].
  change (String c (s +:+ "") = String c s). now rewrite IH.
Qed.

Lemma append_assoc (a b c : string) : (a +:+ b) +:+ c = a +:+ b +:+ c.
Proof.
  induction a as [|x a IH]; [reflexivity|].
  change (String x ((a +:+ b) +:+ c) = String x (a +:+ b +:+ c)). now rewrite IH.
Qed.

Lemma startswith_app (s p : string) :
  Py.startswith s p = true -> s = p +:+ Py.drop (String.length p) s.
Proof.
  revert s. induction p as [|b p IH]; intros s; [reflexivity|].
  destruct s as [|a s]; simpl; [discriminate|].
  destruct (Ascii.eqb a b) eqn:E; simpl; [|discriminate].
  apply Ascii.eqb_eq in E. subst b. intros H.
  change (String a s = String a (p +:+ Py.drop (String.length p) s)).
  now rewrite <- IH.
Qed.

Lemma endswith_app (n p : string) : Py.endswith (n +:+ p) p = true.
Proof.
  unfold Py.endswith. rewrite length_append.
  replace (String.length n + String.length p - String.length p)
    with (String.length n) by lia.
  rewrite drop_append, String.eqb_refl.
  apply andb_true_iff. split; [apply Nat.leb_le; lia | reflexivity].
Qed.

Lemma drop_end_app (n p : string) :
  p <> "" -> Py.drop_end (String.length p) (n +:+ p) = n.
Proof.
  intros Hp. unfold Py.drop_end.
  destruct (String.length p) as [|k] eqn:L; [destruct p; [contradiction | discriminate]|].
  rewrite length_append, L.
  replace (String.length n + S k - S k) with (String.length n) by lia.
  apply take_append.
Qed.

(** ** [str(path)] ends with [path.suffix] *)

Lemma take_drop (i : nat) (n : string) : n = Py.take i n +:+ Py.drop i n.
Proof.
  revert n. induction i as [|i IH]; intros [|c n]; try reflexivity.
  simpl. change (String c n = String c (Py.take i n +:+ Py.drop i n)).
  now rewrite <- IH.
Qed.

Lemma find_app_sep (c : ascii) (a b : string) :
  Py.find c (a +:+ String c b) <> None.
Proof.
  induction a as [|x a IH].
  - change ("" +:+ String c b) with (String c b). simpl.
    now rewrite Ascii.eqb_refl.
  - change (String x a +:+ String c b) with (String x (a +:+ String c b)).
    simpl. destruct (Ascii.eqb x c); [discriminate|].
    now destruct (Py.find c (a +:+ String c b)).
Qed.

(** A single path segment does not end in [/data]. *)
Lemma segment_not_data (n : string) :
  Py.find "/" n = None -> Py.endswith n "/data" = false.
Proof.
  intros Hn. destruct (Py.endswith n "/data") eqn:E; [|reflexivity].
  unfold Py.endswith in E. apply andb_true_iff in E as [_ E].
  apply String.eqb_eq in E.
  pose proof (take_drop (String.length n - String.length "/data") n) as Hsplit.
  rewrite E in Hsplit. rewrite Hsplit in Hn.
  now apply find_app_sep in Hn.
Qed.

Lemma join_ends_with_last (l : list string) :
  exists X, Py.join "/" l = X +:+ Py.last_item l.
Proof.
  unfold Py.last_item. induction l as [|x l [X IH]]; [now exists ""|].
  destruct l as [|y l]; [now exists ""|].
  exists (x +:+ "/" +:+ X).
  change (Py.join "/" (x :: y :: l)) with (x +:+ "/" +:+ Py.join "/" (y :: l)).
  change (List.last (x :: y :: l) "") with (List.last (y :: l) "").
  now rewrite IH, !append_assoc.
Qed.

Lemma str_ends_with_suffix (p : pathlib.Path) :
  pathlib.suffix p <> "" ->
  pathlib.str p
  = Py.drop_end (String.length (pathlib.suffix p)) (pathlib.str p) +:+ pathlib.suffix p.
Proof.
  intros Hs.
  assert (HY : exists Y, pathlib.str p = Y +:+ pathlib.suffix p).
  { pose proof (suffix_length p Hs) as Hlen.
    unfold pathlib.suffix in *.
    destruct (Py.rfind "." (pathlib.name p)) as [i|]; [|congruence].
    destruct ((0 <? i)%nat && (i <? String.length (pathlib.name p) - 1)%nat);
      [|congruence].
    unfold pathlib.str, pathlib.name in *.
    destruct (pathlib.tail p) as [|x l]; [simpl in Hlen; lia|].
    destruct (join_ends_with_last (x :: l)) as [X HX].
    destruct (String.eqb (pathlib.root p +:+ Py.join "/" (x :: l)) "") eqn:E.
    - apply String.eqb_eq in E. apply (f_equal String.length) in E.
      rewrite HX, !length_append in E. change (String.length "") with 0 in E. lia.
    - exists (pathlib.root p +:+ X +:+ Py.take i (Py.last_item (x :: l))).
      rewrite HX at 1. rewrite (take_drop i (Py.last_item (x :: l))) at 1.
      now rewrite !append_assoc. }
  destruct HY as [Y HY]. rewrite HY at 2. rewrite drop_end_app by assumption.
  exact HY.
Qed.

(** ** Well-formed paths are fixed by [parse] *)

Lemma first_char_not_sep (x : string) :
  x <> "" -> Py.find "/" x = None -> Py.startswith x "/" = false.
Proof.
  destruct x as [|c r]; [contradiction|]. simpl. intros _.
  now destruct (Ascii.eqb c "/").
Qed.

Lemma startswith_app_l (x y : string) :
  x <> "" -> Py.startswith (x +:+ y) "/" = Py.startswith x "/".
Proof.
  destruct x as [|c r]; [contradiction|]. intros _.
  change (String c r +:+ y) with (String c (r +:+ y)). simpl.
  now destruct (Ascii.eqb c "/").
Qed.

Lemma join_cons (x y : string) (l : list string) :
  Py.join "/" (x :: y :: l) = x +:+ String "/" (Py.join "/" (y :: l)).
Proof. reflexivity. Qed.

Lemma join_startswith (l : list string) :
  Forall (fun y => Py.find "/" y = None) l ->
  match l with x :: _ => x <> "" | [] => True end ->
  Py.startswith (Py.join "/" l) "/" = false.
Proof.
  destruct l as [|x [|y l]]; intros HF Hx; [reflexivity | |].
  - apply first_char_not_sep; [assumption | now inversion HF].
  - rewrite join_cons, startswith_app_l by assumption.
    apply first_char_not_sep; [assumption | now inversion HF].
Qed.

Lemma split_join (l : list string) :
  l <> [] -> Forall (fun y => Py.find "/" y = None) l ->
  Py.split "/" (Py.join "/" l) = l.
Proof.
  induction l as [|x l IH]; [congruence|]. intros _ HF.
  inversion HF as [|? ? Hx Hl]; subst.
  destruct l as [|y l]; [now apply split_no_sep|].
  rewrite join_cons, split_app, split_no_sep by assumption.
  rewrite IH; [reflexivity | discriminate | assumption].
Qed.

Lemma roots_cases (r : string) :
  Py.contains [""; "/"; "//"] r = true -> r = "" \/ r = "/" \/ r = "//".
Proof.
  unfold Py.contains. simpl. rewrite !orb_true_iff, !String.eqb_eq.
  intuition discriminate.
Qed.

Lemma splitroot_rooted (r rel : string) :
  Py.contains [""; "/"; "//"] r = true -> Py.startswith rel "/" = false ->
  pathlib.splitroot (r +:+ rel) = (r, rel).
Proof.
  intros Hr Hrel. unfold pathlib.splitroot.
  destruct (roots_cases r Hr) as [-> | [-> | ->]];
    (destruct rel as [|c t]; [reflexivity|]);
    simpl in Hrel |- *;
    (destruct (Ascii.eqb c "/"); [discriminate Hrel | reflexivity]).
Qed.

Lemma parse_root_join (r : string) (l : list string) :
  Py.contains [""; "/"; "//"] r = true ->
  Forall (fun y => Py.find "/" y = None) l ->
  match l with x :: _ => x <> "" | [] => True end ->
  pathlib.parse (r +:+ Py.join "/" l) = pathlib.mkPath r (List.filter pathlib.keep_part l).
Proof.
  intros Hr HF Hx. unfold pathlib.parse.
  destruct (String.eqb (r +:+ Py.join "/" l) "") eqn:E.
  - apply String.eqb_eq in E. apply (f_equal String.length) in E.
    rewrite length_append in E. change (String.length "") with 0 in E.
    destruct r; [|simpl in E; lia].
    destruct l as [|x [|y l]]; [reflexivity | |].
    + destruct x; [contradiction | simpl in E; lia].
    + rewrite join_cons, length_append in E. simpl in E. lia.
  - rewrite splitroot_rooted by (auto using join_startswith).
    destruct l as [|x l]; [reflexivity|].
    now rewrite split_join.
Qed.

Lemma wf_parts (l : list string) :
  forallb pathlib.wf_part l = true ->
  Forall (fun y => Py.find "/" y = None) l
  /\ List.filter pathlib.keep_part l = l
  /\ match l with x :: _ => x <> "" | [] => True end.
Proof.
  intros H.
  assert (HA : Forall (fun y => pathlib.keep_part y = true /\ Py.find "/" y = None) l).
  { apply List.Forall_forall. intros y Hy.
    rewrite forallb_forall in H. specialize (H y Hy).
    unfold pathlib.wf_part in H. apply andb_true_iff in H as [H1 H2].
    split; [assumption|]. now destruct (Py.find "/" y). }
  clear H. split; [|split].
  - eapply List.Forall_impl; [|exact HA]. now intros y [_ ?].
  - induction HA as [|y l [Hk _] _ IH]; [reflexivity|].
    simpl. now rewrite Hk, IH.
  - destruct HA as [|y l [Hk _] _]; [exact I|].
    intros ->. discriminate.
Qed.

Lemma parse_str (p : pathlib.Path) :
  pathlib.wf p = true -> pathlib.parse (pathlib.str p) = p.
Proof.
  destruct p as [r l]. unfold pathlib.wf, pathlib.str. simpl.
  intros H. apply andb_true_iff in H as [Hr Hl].
  destruct (wf_parts l Hl) as (HF & Hk & Hx).
  destruct (String.eqb (r +:+ Py.join "/" l) "") eqn:E.
  - apply String.eqb_eq in E. apply (f_equal String.length) in E.
    rewrite length_append in E. change (String.length "") with 0 in E.
    destruct r; [|simpl in E; lia].
    destruct l as [|x [|y l]]; [reflexivity | |].
    + destruct x; [contradiction | simpl in E; lia].
    + rewrite join_cons, length_append in E. simpl in E. lia.
  - rewrite parse_root_join by assumption. now rewrite Hk.
Qed.

Lemma join_snoc (l : list string) :
  l <> [] -> Py.join "/" (l ++ [""]) = Py.join "/" l +:+ "/".
Proof.
  induction l as [|x l IH]; [congruence|]. intros _.
  destruct l as [|y l]; [reflexivity|].
  change ((x :: y :: l) ++ [""]) with (x :: y :: (l ++ [""])).
  rewrite !join_cons.
  change (y :: l ++ [""]) with ((y :: l) ++ [""]).
  rewrite IH by discriminate.
  change (String "/" (Py.join "/" (y :: l) +:+ "/"))
    with (String "/" (Py.join "/" (y :: l)) +:+ "/").
  now rewrite append_assoc.
Qed.

(** Joining the empty string leaves a well-formed path as it is. *)
Lemma joinpath_empty (p : pathlib.Path) :
  pathlib.wf p = true -> pathlib.joinpath p "" = p.
Proof.
  intros Hwf. unfold pathlib.joinpath, pathlib.posix_join.
  change (Py.startswith "" "/") with false. cbv iota.
  destruct (String.eqb (pathlib.str p) "" || Py.endswith (pathlib.str p) "/") eqn:C.
  - rewrite append_empty. now apply parse_str.
  - change ("/" +:+ "") with "/".
    destruct p as [r l]. unfold pathlib.wf in Hwf. simpl in Hwf.
    apply andb_true_iff in Hwf as [Hr Hl].
    destruct (wf_parts l Hl) as (HF & Hk & Hx).
    destruct l as [|x l].
    + destruct (roots_cases r Hr) as [-> | [-> | ->]];
        [reflexivity | discriminate C | discriminate C].
    + unfold pathlib.str in *. simpl pathlib.root in *. simpl pathlib.tail in *.
      destruct (String.eqb (r +:+ Py.join "/" (x :: l)) "") eqn:E.
      * apply String.eqb_eq in E. apply (f_equal String.length) in E.
        rewrite length_append, length_join in E.
        change (String.length "") with 0 in E.
        pose proof (join_length_cons x l). destruct x; [contradiction|].
        destruct l; simpl in E; lia.
      * rewrite append_assoc, <- join_snoc by discriminate.
        rewrite parse_root_join; [| assumption | | assumption].
        -- rewrite List.filter_app, Hk. simpl. now rewrite app_nil_r.
        -- apply List.Forall_app. split; [assumption|]. now constructor.
Qed.

Section LoadFacts.

Context {World DataFrame : Type}.
Context {FS : FileSystem World} {PD : Pandas World DataFrame}.
Context {KA : KaggleApi World} {UP : UrlParser}.

Local Open Scope loader_scope.

Lemma bind_ext {A B} (m : M World A) (k1 k2 : A -> M World B) (st : state World) :
  (forall a st', k1 a st' = k2 a st') -> bind m k1 st = bind m k2 st.
Proof.
  intros H. unfold bind. destruct (m st) as [[[a|e] st']|]; auto.
Qed.

Lemma load_fuel_stable (n m : nat) (p : pathlib.Path) (st : state World) :
  String.length (pathlib.str p) <= n ->
  String.length (pathlib.str p) <= m ->
  load_fuel n p st = load_fuel m p st.
Proof.
  revert m p st. induction n as [|n IH]; intros m p st Hn Hm.
  - pose proof (str_length_pos p). lia.
  - destruct m as [|m]; [pose proof (str_length_pos p); lia|].
    cbn [load_fuel].
    destruct (Py.contains [".csv"; ".txt"] (pathlib.suffix p)); [reflexivity|].
    destruct (String.eqb (pathlib.suffix p) ".tsv"); [reflexivity|].
    destruct (String.eqb (pathlib.suffix p) ".zip") eqn:Z; [|reflexivity].
    apply String.eqb_eq in Z. pose proof (zip_step_shorter p Z).
    apply bind_ext. intros _ st'. apply IH; lia.
Qed.

Lemma load_unfold (p : pathlib.Path) (st : state World) :
  load p st =
  (if Py.contains [".csv"; ".txt"] (pathlib.suffix p) then
     call (EReadCsv (pathlib.str p) ",") (read_csv (pathlib.str p) ",")
   else if String.eqb (pathlib.suffix p) ".tsv" then
     call (EReadCsv (pathlib.str p) TAB) (read_csv (pathlib.str p) TAB)
   else if String.eqb (pathlib.suffix p) ".zip" then
     call (EExtractAll (pathlib.str p) (pathlib.str (pathlib.parent p)))
          (extractall (pathlib.str p) (pathlib.str (pathlib.parent p))) ;;
     load (extracted p)
   else raise (NotImplementedError ("load " +:+ pathlib.suffix p))) st.
Proof.
  unfold load. pose proof (str_length_pos p) as Hp.
  destruct (String.length (pathlib.str p)) as [|n] eqn:L; [lia|].
  cbn [load_fuel].
  destruct (Py.contains [".csv"; ".txt"] (pathlib.suffix p)); [reflexivity|].
  destruct (String.eqb (pathlib.suffix p) ".tsv"); [reflexivity|].
  destruct (String.eqb (pathlib.suffix p) ".zip") eqn:Z; [|reflexivity].
  apply String.eqb_eq in Z. pose proof (zip_step_shorter p Z).
  apply bind_ext. intros _ st'. apply load_fuel_stable; unfold extracted; lia.
Qed.

Lemma call_total {A} (ev : event) (h : World -> (external + A) * World) (st : state World) :
  exists r st', call ev h st = Some (r, st').
Proof.
  unfold call. destruct (h (world st)) as [[e|a] w]; eauto.
Qed.

Lemma load_fuel_total (n : nat) (p : pathlib.Path) (st : state World) :
  String.length (pathlib.str p) <= n ->
  exists r st', load_fuel n p st = Some (r, st').
Proof.
  revert p st. induction n as [|n IH]; intros p st Hn.
  - pose proof (str_length_pos p). lia.
  - cbn [load_fuel].
    destruct (Py.contains [".csv"; ".txt"] (pathlib.suffix p)); [apply call_total|].
    destruct (String.eqb (pathlib.suffix p) ".tsv"); [apply call_total|].
    destruct (String.eqb (pathlib.suffix p) ".zip") eqn:Z; [|unfold raise; eauto].
    apply String.eqb_eq in Z. pose proof (zip_step_shorter p Z).
    unfold bind.
    destruct (call_total (EExtractAll (pathlib.str p) (pathlib.str (pathlib.parent p)))
                (extractall (pathlib.str p) (pathlib.str (pathlib.parent p))) st)
      as ([[]|e] & st' & ->); [|eauto].
    apply IH. lia.
Qed.

Lemma load_total (p : pathlib.Path) (st : state World) :
  exists r st', load p st = Some (r, st').
Proof. apply load_fuel_total. reflexivity. Qed.

(** [load] raises nothing of its own but [NotImplementedError]. *)
Lemma load_fuel_raises (n : nat) (p : pathlib.Path) (st st' : state World) (e : exn) :
  load_fuel n p st = Some (Raise e, st') ->
  (exists x, e = Foreign x) \/ (exists m, e = NotImplementedError m).
Proof.
  revert p st. induction n as [|n IH]; intros p st; [discriminate|].
  cbn [load_fuel].
  assert (Hcall : forall A ev (h : World -> (external + A) * World),
             call ev h st = Some (Raise e, st') -> exists x, e = Foreign x).
  { intros A ev h. unfold call. destruct (h (world st)) as [[x|a] w]; intros [= <- <-]; eauto. }
  destruct (Py.contains [".csv"; ".txt"] (pathlib.suffix p)); [left; eauto|].
  destruct (String.eqb (pathlib.suffix p) ".tsv"); [left; eauto|].
  destruct (String.eqb (pathlib.suffix p) ".zip").
  - unfold bind, call.
    destruct (extractall _ _ _) as [[x|[]] w].
    + intros [= <- <-]. eauto.
    + apply IH.
  - intros [= <- <-]. eauto.
Qed.

Lemma load_raises (p : pathlib.Path) (st st' : state World) (e : exn) :
  load p st = Some (Raise e, st') ->
  (exists x, e = Foreign x) \/ (exists m, e = NotImplementedError m).
Proof. apply load_fuel_raises. Qed.

(** ** The two branches of [kaggle_load] *)

Lemma kaggle_load_invalid_netloc (dp : pathlib.Path) (url file : string)
    (uc : urllib.ParseResult) (st : state World) :
  urlparse url = inr uc ->
  urllib.netloc uc <> "www.kaggle.com" ->
  kaggle_load dp url file st
  = Some (Raise (ValueError (msg_invalid_netloc (urllib.netloc uc))), st).
Proof.
  intros Hp Hn. unfold kaggle_load. rewrite Hp.
  apply String.eqb_neq in Hn. cbv beta iota delta [lift bind ret]. now rewrite Hn.
Qed.

Lemma kaggle_load_competition (dp : pathlib.Path) (url file : string)
    (uc : urllib.ParseResult) (st : state World) :
  urlparse url = inr uc ->
  urllib.netloc uc = "www.kaggle.com" ->
  Py.startswith (urllib.path uc) "/competitions/" = true ->
  kaggle_load dp url file st
  = competition_branch dp
      (if Py.endswith (Py.drop 14 (urllib.path uc)) "/data"
       then Py.drop_end 5 (Py.drop 14 (urllib.path uc))
       else Py.drop 14 (urllib.path uc))
      file st.
Proof.
  intros Hp Hn Hs. unfold kaggle_load, competition_branch. rewrite Hp.
  cbv beta iota delta [lift bind ret call]. rewrite Hn, Hs, String.eqb_refl.
  cbv beta iota delta [negb].
  destruct (mkdir _ _ _ _) as [[x|[]] w]; [reflexivity|]. cbn [world trace].
  destruct (competition_download_file _ _ _ _ _) as [[x|[]] w']; reflexivity.
Qed.

Lemma kaggle_load_dataset (dp : pathlib.Path) (url file : string)
    (uc : urllib.ParseResult) (st : state World) :
  urlparse url = inr uc ->
  urllib.netloc uc = "www.kaggle.com" ->
  Py.startswith (urllib.path uc) "/datasets/" = true ->
  kaggle_load dp url file st
  = dataset_branch dp
      (Py.drop 10 (urllib.path uc))
      (Py.last_item (Py.split "/" (Py.drop 10 (urllib.path uc))))
      file st.
Proof.
  intros Hp Hn Hs.
  assert (Hc : Py.startswith (urllib.path uc) "/competitions/" = false).
  { apply startswith_app in Hs. rewrite Hs. reflexivity. }
  unfold kaggle_load, dataset_branch. rewrite Hp.
  cbv beta iota delta [lift bind ret call]. rewrite Hn, Hs, Hc, String.eqb_refl.
  cbv beta iota delta [negb].
  destruct (mkdir _ _ _ _) as [[x|[]] w]; [reflexivity|]. cbn [world trace].
  destruct (dataset_download_file _ _ _ _ _) as [[x|[|]] w']; reflexivity.
Qed.

End LoadFacts.

(** * The constructor *)

Section Constructor.

Context {World DataFrame : Type}.
Context {FS : FileSystem World} {PD : Pandas World DataFrame}.
Context {KA : KaggleApi World} {UP : UrlParser}.

Local Open Scope loader_scope.

Lemma init_local (p : string) (u f d : option string) (st : state World) :
  Py.all [Py.truthy u; Py.truthy f; Py.truthy d] = false ->
  __init__ (Some p) u f d st
  = (validate_local_path (pathlib.parse p) ;;
     df <- load (pathlib.parse p) ;;
     ret (mkData (Some (pathlib.parse p)) df false None)) st.
Proof. intros H. unfold __init__. rewrite H. reflexivity. Qed.

(** C1, as amended: a call that gives a local path together with all
    three remote fields, or no local path and not all three remote
    fields (a remote field counts as given when it is a non-empty
    string; giving nothing at all is the second case), fails with the
    [ValueError] of kind InvalidRequest, and no collaborator is called:
    the state is the one the call started in.  A call that gives a local
    path and some, but not all, remote fields is run as the local load
    of that path, the remote fields being ignored. *)
Theorem init_invalid_combination (path u f d : option string) (st : state World) :
  (is_not_None path = Py.all [Py.truthy u; Py.truthy f; Py.truthy d] ->
   __init__ path u f d st = Some (Raise (ValueError msg_invalid_combination), st)
   /\ kind_of (ValueError msg_invalid_combination) = Some InvalidRequest)
  /\ (is_not_None path = true ->
      Py.all [Py.truthy u; Py.truthy f; Py.truthy d] = false ->
      __init__ path u f d st = __init__ path None None None st).
Proof.
  split.
  - intros H. split; [|reflexivity].
    unfold __init__. rewrite <- H. now destruct (is_not_None path).
  - intros Hp Ha. destruct path as [p|]; [|discriminate].
    now rewrite !init_local.
Qed.


(** Membership in [supported_formats] is equality with one of the two
    literals. *)
Lemma supported_formats_spec (s : string) :
  Py.contains supported_formats s = true <-> s = ".txt" \/ s = ".csv".
Proof.
  unfold Py.contains, supported_formats. simpl.
  rewrite !orb_true_iff, !String.eqb_eq. intuition discriminate.
Qed.



End Constructor.

(** * The format dispatcher *)

Section Dispatcher.

Context {World DataFrame : Type}.
Context {FS : FileSystem World} {PD : Pandas World DataFrame}.
Context {KA : KaggleApi World} {UP : UrlParser}.

Local Open Scope loader_scope.

(** C4, as amended: [load] terminates on every path and every state.
    A [.zip] step recurses on a path at least four characters shorter,
    so the length of the path bounds the number of nested calls; no
    other cap on the depth exists.  On a directly handled extension the
    dispatcher calls the parser without testing that the file exists,
    so the outcome is the parser's: UnsupportedFormat is not raised for
    a missing file. *)
Theorem load_terminates (p : pathlib.Path) (st : state World) :
  (exists r st', load p st = Some (r, st'))
  /\ (pathlib.suffix p = ".zip" ->
      String.length (pathlib.str (extracted p)) + 4 <= String.length (pathlib.str p))
  /\ (Py.contains [".csv"; ".txt"; ".tsv"] (pathlib.suffix p) = true ->
      exists sep,
        load p st = call (EReadCsv (pathlib.str p) sep) (read_csv (pathlib.str p) sep) st).
Proof.
  split; [apply load_total|]. split; [apply zip_step_shorter|].
  intros H. rewrite load_unfold.
  destruct (Py.contains [".csv"; ".txt"] (pathlib.suffix p)) eqn:E1; [eauto|].
  destruct (String.eqb (pathlib.suffix p) ".tsv") eqn:E2; [eauto|].
  unfold Py.contains in *. simpl in *.
  rewrite E2 in H. rewrite !orb_false_r in *. now rewrite E1 in H.
Qed.

(** C5: on a path with suffix [.zip], [load] extracts the archive into
    the parent directory of the archive and then dispatches on
    [extracted path], the path parsed from [str(path)] without its
    trailing [.zip]; when that path has suffix [.tsv], the whole load is
    the extraction followed by [read_csv] of the inner file with the tab
    separator, which is also what loading the inner file directly is. *)
Theorem load_zip_then_tsv (p : pathlib.Path) (st : state World) :
  pathlib.suffix p = ".zip" ->
  pathlib.str p = Py.drop_end 4 (pathlib.str p) +:+ ".zip"
  /\ extracted p = pathlib.parse (Py.drop_end 4 (pathlib.str p))
  /\ load p st
     = (call (EExtractAll (pathlib.str p) (pathlib.str (pathlib.parent p)))
             (extractall (pathlib.str p) (pathlib.str (pathlib.parent p))) ;;
        load (extracted p)) st
  /\ (pathlib.suffix (extracted p) = ".tsv" ->
      (forall st1,
          load (extracted p) st1
          = call (EReadCsv (pathlib.str (extracted p)) TAB)
                 (read_csv (pathlib.str (extracted p)) TAB) st1)
      /\ load p st
         = (call (EExtractAll (pathlib.str p) (pathlib.str (pathlib.parent p)))
                 (extractall (pathlib.str p) (pathlib.str (pathlib.parent p))) ;;
            call (EReadCsv (pathlib.str (extracted p)) TAB)
                 (read_csv (pathlib.str (extracted p)) TAB)) st).
Proof.
  intros Hz.
  assert (Hstr : pathlib.str p = Py.drop_end 4 (pathlib.str p) +:+ ".zip").
  { pose proof (str_ends_with_suffix p) as H. rewrite Hz in H. apply H. discriminate. }
  assert (Hload : load p st
     = (call (EExtractAll (pathlib.str p) (pathlib.str (pathlib.parent p)))
             (extractall (pathlib.str p) (pathlib.str (pathlib.parent p))) ;;
        load (extracted p)) st).
  { rewrite load_unfold, Hz. reflexivity. }
  split; [exact Hstr|]. split; [unfold extracted; now rewrite Hz|].
  split; [exact Hload|].
  intros Ht.
  assert (Hin : forall st1,
          load (extracted p) st1
          = call (EReadCsv (pathlib.str (extracted p)) TAB)
                 (read_csv (pathlib.str (extracted p)) TAB) st1).
  { intros st1. rewrite load_unfold, Ht. reflexivity. }
  split; [exact Hin|].
  rewrite Hload. apply bind_ext. intros _ st1. apply Hin.
Qed.

End Dispatcher.

(** ** No cap on the depth *)

Lemma zips_length (n : nat) (s : string) :
  String.length (Mock.zips n s) = String.length s + 4 * n.
Proof.
  induction n as [|n IH]; simpl; [lia|]. rewrite length_append, IH. simpl. lia.
Qed.

Lemma find_app_none (c : ascii) (a b : string) :
  Py.find c a = None -> Py.find c b = None -> Py.find c (a +:+ b) = None.
Proof.
  intros Ha Hb. induction a as [|x a IH]; [exact Hb|].
  change (String x a +:+ b) with (String x (a +:+ b)).
  simpl in *. destruct (Ascii.eqb x c); [discriminate|].
  destruct (Py.find c a); [discriminate|]. now rewrite IH.
Qed.

Lemma rfind_app_dot (s t : string) :
  Py.rfind "." t = None ->
  Py.rfind "." (s +:+ String "." t) = Some (String.length s).
Proof.
  intros Ht. induction s as [|a s IH]; simpl.
  - change ("" +:+ String "." t) with (String "." t). simpl. now rewrite Ht.
  - change (String a s +:+ String "." t) with (String a (s +:+ String "." t)).
    simpl. now rewrite IH.
Qed.

Lemma zips_wf_part (n : nat) : pathlib.wf_part (Mock.zips n "x.csv") = true.
Proof.
  unfold pathlib.wf_part.
  assert (Hf : Py.find "/" (Mock.zips n "x.csv") = None).
  { induction n as [|n IH]; [reflexivity|]. simpl. now apply find_app_none. }
  rewrite Hf, andb_true_r.
  pose proof (zips_length n "x.csv") as Hl. simpl in Hl.
  unfold pathlib.keep_part.
  destruct (Mock.zips n "x.csv") as [|a [|b z]]; simpl in Hl; try lia.
  simpl. now destruct (Ascii.eqb a ".").
Qed.

Lemma nested_wf (n : nat) : pathlib.wf (Mock.nested n) = true.
Proof.
  unfold pathlib.wf, Mock.nested. simpl. now rewrite zips_wf_part.
Qed.

Lemma nested_str (n : nat) :
  pathlib.str (Mock.nested n) = "/d/" +:+ Mock.zips n "x.csv".
Proof. reflexivity. Qed.

Lemma nested_suffix (n : nat) : pathlib.suffix (Mock.nested (S n)) = ".zip".
Proof.
  unfold pathlib.suffix, pathlib.name, Mock.nested, Py.last_item. simpl.
  rewrite (rfind_app_dot (Mock.zips n "x.csv") "zip") by reflexivity.
  rewrite length_append.
  pose proof (zips_length n "x.csv") as Hl. simpl in Hl.
  replace (0 <? String.length (Mock.zips n "x.csv"))%nat with true
    by (symmetry; apply Nat.ltb_lt; lia).
  replace (String.length (Mock.zips n "x.csv")
           <? String.length (Mock.zips n "x.csv") + String.length ".zip" - 1)%nat
    with true by (symmetry; apply Nat.ltb_lt; simpl; lia).
  apply drop_append.
Qed.

Lemma nested_extracted (n : nat) : extracted (Mock.nested (S n)) = Mock.nested n.
Proof.
  unfold extracted. rewrite nested_suffix, nested_str.
  change (Mock.zips (S n) "x.csv") with (Mock.zips n "x.csv" +:+ ".zip").
  rewrite <- append_assoc, drop_end_app by discriminate.
  rewrite <- nested_str. apply parse_str, nested_wf.
Qed.

(** For every [n] there is a path that [load] unpacks through [n]
    nested calls: the depth of the recursion has no bound. *)
Lemma load_depth_unbounded (n : nat) (t : list event) :
  load (Mock.nested n) (mkState tt t)
  = Some (Ok "/d/x.csv",
          mkState tt (t ++ Mock.extractions n ++ [EReadCsv "/d/x.csv" ","]))
  /\ length (Mock.extractions n) = n.
Proof.
  revert t. induction n as [|n IH]; intros t; [split; reflexivity|].
  destruct (IH (t ++ [EExtractAll (pathlib.str (Mock.nested (S n))) "/d"])) as [IH1 IH2].
  split; [|simpl; now rewrite IH2].
  rewrite load_unfold, nested_suffix, nested_extracted.
  cbn [Py.contains existsb String.eqb Ascii.eqb Bool.eqb orb].
  unfold bind, call. cbn [world trace extractall Mock.mock_fs].
  change (pathlib.str (pathlib.parent (Mock.nested (S n)))) with "/d".
  rewrite IH1. now rewrite <- app_assoc.
Qed.

(** * The remote fetcher *)

Section Remote.

Context {World DataFrame : Type}.
Context {FS : FileSystem World} {PD : Pandas World DataFrame}.
Context {KA : KaggleApi World} {UP : UrlParser}.

Local Open Scope loader_scope.

(** [kaggle_load] reads the host and the path of the parsed URL and
    nothing else: two URLs that agree on both are treated alike. *)
Lemma kaggle_load_reads_netloc_and_path (dp : pathlib.Path) (url1 url2 file : string)
    (uc1 uc2 : urllib.ParseResult) (st : state World) :
  urlparse url1 = inr uc1 ->
  urlparse url2 = inr uc2 ->
  urllib.netloc uc1 = urllib.netloc uc2 ->
  urllib.path uc1 = urllib.path uc2 ->
  kaggle_load dp url1 file st = kaggle_load dp url2 file st.
Proof.
  intros H1 H2 Hn Hp. unfold kaggle_load. rewrite H1, H2.
  cbv beta iota delta [lift bind ret]. now rewrite Hn, Hp.
Qed.

(** C3, as amended: only the host of the URL is tested.  A URL whose
    host is not [www.kaggle.com] fails with the [ValueError] of kind
    InvalidUrl in the state the call started in, so before any directory
    is created or any download attempted; and a run that returns a table
    or makes any call had host [www.kaggle.com].  The scheme is not
    looked at: a URL that parses to the same host and path, whatever
    its scheme, gives the same run. *)
Theorem kaggle_load_host_check (dp : pathlib.Path) (url file : string)
    (uc : urllib.ParseResult) (st : state World) :
  urlparse url = inr uc ->
  (urllib.netloc uc <> "www.kaggle.com" ->
   kaggle_load dp url file st
   = Some (Raise (ValueError (msg_invalid_netloc (urllib.netloc uc))), st)
   /\ kind_of (ValueError (msg_invalid_netloc (urllib.netloc uc))) = Some InvalidUrl)
  /\ (forall r st',
        kaggle_load dp url file st = Some (r, st') ->
        trace st' <> trace st \/ (exists df, r = Ok df) ->
        urllib.netloc uc = "www.kaggle.com")
  /\ (forall url' uc',
        urlparse url' = inr uc' ->
        urllib.netloc uc' = urllib.netloc uc ->
        urllib.path uc' = urllib.path uc ->
        kaggle_load dp url' file st = kaggle_load dp url file st).
Proof.
  intros Hp. split; [|split].
  - intros Hn. split; [now apply kaggle_load_invalid_netloc | reflexivity].
  - intros r st' Hrun Hobs.
    destruct (string_dec (urllib.netloc uc) "www.kaggle.com") as [|Hn]; [assumption|].
    rewrite (kaggle_load_invalid_netloc dp url file uc st Hp Hn) in Hrun.
    injection Hrun as <- <-.
    destruct Hobs as [Ht | [df Hdf]]; [now contradiction Ht | discriminate].
  - intros url' uc' Hp' Hn Hpath.
    now apply (kaggle_load_reads_netloc_and_path dp url' url file uc' uc).
Qed.

(** A failure of the competition client reaches the caller as it was
    raised; it is not turned into the [RuntimeError] of the dataset
    branch. *)
Lemma competition_failure_propagates (dp : pathlib.Path) (name file : string)
    (st : state World) (w1 w2 : World) (x : external) :
  mkdir (pathlib.joinpath dp (urllib.quote name)) true true (world st) = (inr tt, w1) ->
  competition_download_file name file
    (pathlib.str (pathlib.joinpath dp (urllib.quote name))) true w1 = (inl x, w2) ->
  exists st', competition_branch dp name file st = Some (Raise (Foreign x), st')
              /\ kind_of (Foreign x) = None.
Proof.
  intros Hm Hd. unfold competition_branch, bind, call.
  rewrite Hm. cbn [world trace]. rewrite Hd. eauto.
Qed.

(** C6: for the URL path [/datasets/<owner>/<name>] the destination
    directory is the download directory joined with [quote(name)], the
    client is called with the identifier [<owner>/<name>], the file
    name, that directory and [force=True], and the path given to [load]
    is the destination directory joined with [quote(file)]. *)
Theorem kaggle_load_dataset_destination (dp : pathlib.Path) (url file owner name : string)
    (uc : urllib.ParseResult) (st : state World) :
  urlparse url = inr uc ->
  urllib.netloc uc = "www.kaggle.com" ->
  urllib.path uc = "/datasets/" +:+ owner +:+ "/" +:+ name ->
  Py.find "/" name = None ->
  kaggle_load dp url file st
  = (let dest := pathlib.joinpath dp (urllib.quote name) in
     call (EMkdir (pathlib.str dest) true true) (mkdir dest true true) ;;
     downloaded <-
       call (EDatasetDownload (owner +:+ "/" +:+ name) file (pathlib.str dest) true)
            (dataset_download_file (owner +:+ "/" +:+ name) file (pathlib.str dest) true) ;;
     if negb downloaded then raise (RuntimeError msg_download_failed)
     else load (pathlib.joinpath dest (urllib.quote file))) st.
Proof.
  intros Hp Hn Hpath Hname.
  rewrite (kaggle_load_dataset dp url file uc st Hp Hn) by (rewrite Hpath; reflexivity).
  rewrite Hpath.
  change (Py.drop 10 ("/datasets/" +:+ owner +:+ "/" +:+ name))
    with (owner +:+ "/" +:+ name).
  now rewrite last_segment.
Qed.

(** The competition name [kaggle_load] computes, with and without the
    trailing [/data]. *)
Lemma competition_name_normalized (dp : pathlib.Path) (url1 url2 file n : string)
    (uc1 uc2 : urllib.ParseResult) (st : state World) :
  urlparse url1 = inr uc1 ->
  urlparse url2 = inr uc2 ->
  urllib.netloc uc1 = "www.kaggle.com" ->
  urllib.netloc uc2 = "www.kaggle.com" ->
  urllib.path uc1 = "/competitions/" +:+ n +:+ "/data" ->
  urllib.path uc2 = "/competitions/" +:+ n ->
  Py.endswith n "/data" = false ->
  kaggle_load dp url1 file st = competition_branch dp n file st
  /\ kaggle_load dp url2 file st = competition_branch dp n file st.
Proof.
  intros Hp1 Hp2 Hn1 Hn2 Hpath1 Hpath2 Hnodata. split.
  - rewrite (kaggle_load_competition dp url1 file uc1 st Hp1 Hn1)
      by (rewrite Hpath1; reflexivity).
    rewrite Hpath1.
    change (Py.drop 14 ("/competitions/" +:+ n +:+ "/data")) with (n +:+ "/data").
    rewrite endswith_app.
    change (Py.drop_end 5 (n +:+ "/data"))
      with (Py.drop_end (String.length "/data") (n +:+ "/data")).
    now rewrite drop_end_app by discriminate.
  - rewrite (kaggle_load_competition dp url2 file uc2 st Hp2 Hn2)
      by (rewrite Hpath2; reflexivity).
    rewrite Hpath2.
    change (Py.drop 14 ("/competitions/" +:+ n)) with n.
    now rewrite Hnodata.
Qed.

(** C7: for a competition name [n] (one path segment), the URL paths
    [/competitions/n/data] and [/competitions/n] give the same resource
    name [n], hence the same run: the same destination directory, the
    same call of the client, the same file loaded. *)
Theorem kaggle_load_competition_data (dp : pathlib.Path) (url1 url2 file n : string)
    (uc1 uc2 : urllib.ParseResult) (st : state World) :
  urlparse url1 = inr uc1 ->
  urlparse url2 = inr uc2 ->
  urllib.netloc uc1 = "www.kaggle.com" ->
  urllib.netloc uc2 = "www.kaggle.com" ->
  urllib.path uc1 = "/competitions/" +:+ n +:+ "/data" ->
  urllib.path uc2 = "/competitions/" +:+ n ->
  Py.find "/" n = None ->
  kaggle_load dp url1 file st = competition_branch dp n file st
  /\ kaggle_load dp url2 file st = competition_branch dp n file st
  /\ kaggle_load dp url1 file st = kaggle_load dp url2 file st.
Proof.
  intros Hp1 Hp2 Hn1 Hn2 Hpath1 Hpath2 Hseg.
  destruct (competition_name_normalized dp url1 url2 file n uc1 uc2 st
              Hp1 Hp2 Hn1 Hn2 Hpath1 Hpath2 (segment_not_data n Hseg)) as [H1 H2].
  split; [exact H1|]. split; [exact H2|]. now rewrite H1, H2.
Qed.

Lemma dataset_branch_raises (dp : pathlib.Path) (id name file : string)
    (st st' : state World) (e : exn) :
  dataset_branch dp id name file st = Some (Raise e, st') ->
  kind_of e <> Some InvalidUrl.
Proof.
  unfold dataset_branch, bind, call.
  destruct (mkdir _ _ _ _) as [[x|[]] w]; [intros [= <- <-]; discriminate|].
  cbn [world trace].
  destruct (dataset_download_file _ _ _ _ _) as [[x|[|]] w'];
    [intros [= <- <-]; discriminate | | intros [= <- <-]; discriminate].
  cbn [negb]. intros H. apply load_raises in H as [[x ->] | [m ->]]; discriminate.
Qed.

(** C9: a URL with host [www.kaggle.com] whose path starts with
    [/datasets/] never fails with InvalidUrl, whatever follows the
    prefix.  For the path [/datasets/x] with a single segment [x], the
    identifier given to the client and the name of the destination
    subdirectory are both [x]; for the path [/datasets/] both are the
    empty string and the destination directory is the download directory
    itself. *)
Theorem kaggle_load_datasets_prefix (dp : pathlib.Path) (url file : string)
    (uc : urllib.ParseResult) (st : state World) :
  urlparse url = inr uc ->
  urllib.netloc uc = "www.kaggle.com" ->
  Py.startswith (urllib.path uc) "/datasets/" = true ->
  (forall e st', kaggle_load dp url file st = Some (Raise e, st') ->
                 kind_of e <> Some InvalidUrl)
  /\ (forall x, urllib.path uc = "/datasets/" +:+ x -> Py.find "/" x = None ->
                kaggle_load dp url file st = dataset_branch dp x x file st)
  /\ (urllib.path uc = "/datasets/" -> pathlib.wf dp = true ->
      kaggle_load dp url file st = dataset_branch dp "" "" file st
      /\ pathlib.joinpath dp (urllib.quote "") = dp).
Proof.
  intros Hp Hn Hs.
  pose proof (kaggle_load_dataset dp url file uc st Hp Hn Hs) as Hrun.
  split; [|split].
  - intros e st'. rewrite Hrun. apply dataset_branch_raises.
  - intros x Hpath Hx. rewrite Hrun, Hpath.
    change (Py.drop 10 ("/datasets/" +:+ x)) with x.
    now rewrite split_no_sep.
  - intros Hpath Hwf. split.
    + rewrite Hrun, Hpath. reflexivity.
    + now apply joinpath_empty.
Qed.

End Remote.

(** * Runs in the simulated world *)

Example quote_space : urllib.quote "tree nuts.csv" = "tree%20nuts.csv".
Proof. reflexivity. Qed.

Example parse_normalizes :
  pathlib.str (pathlib.parse "/tmp//dl/./x.csv.zip") = "/tmp/dl/x.csv.zip".
Proof. reflexivity. Qed.

Example suffix_of_hidden_file : pathlib.suffix (pathlib.parse "/tmp/dl/.zip") = "".
Proof. reflexivity. Qed.

Example urlparse_https :
  Sim.sim_urlparse "https://www.kaggle.com/competitions/comp-x/data?select=a#top"
  = inr (urllib.mkParseResult "https" "www.kaggle.com" "/competitions/comp-x/data"
           "" "select=a" "top").
Proof. reflexivity. Qed.

(** C1, the claim as stated fails: a local path given together with one
    remote field is neither of the two exact shapes, yet construction
    succeeds and the file is loaded. *)
Lemma init_path_with_one_remote_field :
  outcome
    (__init__ (Some "/home/u/a.csv")
       (Some "https://www.kaggle.com/datasets/owner/name") None None
       (Sim.start Sim.w0))
  = Some (Ok (mkData (Some (pathlib.parse "/home/u/a.csv")) [["A"; "B"]] false None),
          [EIsFile "/home/u/a.csv"; EReadCsv "/home/u/a.csv" ","]).
Proof. vm_compute. reflexivity. Qed.

Lemma init_invalid_combination_witness :
  __init__ None None None None (Sim.start Sim.w0)
  = Some (Raise (ValueError msg_invalid_combination), Sim.start Sim.w0)
  /\ __init__ (Some "/home/u/a.csv") (Some "https://www.kaggle.com/datasets/owner/name")
       None None (Sim.start Sim.w0)
     = __init__ (Some "/home/u/a.csv") None None None (Sim.start Sim.w0).
Proof.
  split.
  - apply (proj1 (init_invalid_combination None None None None (Sim.start Sim.w0))).
    reflexivity.
  - apply (proj2 (init_invalid_combination (Some "/home/u/a.csv")
                    (Some "https://www.kaggle.com/datasets/owner/name") None None
                    (Sim.start Sim.w0))); reflexivity.
Defined.

(** C2: the failure of the competition client is not normalized.  With
    a competition file the service does not have, the [ApiException] of
    the client reaches the caller as it is, and its kind is not
    RemoteDownloadFailed; the dataset branch, on a missing file, raises
    the [RuntimeError] of kind RemoteDownloadFailed. *)
Theorem competition_failure_not_normalized :
  outcome
    (__init__ None (Some "https://www.kaggle.com/competitions/comp-y")
       (Some "test.tsv.zip") (Some "dl") (Sim.start Sim.w0))
  = Some (Raise (Foreign (mkExternal "ApiException" "(404) Not Found")),
          [EResolve "dl"; EAuthenticate; EMkdir "/home/u/dl/comp-y" true true;
           ECompetitionDownload "comp-y" "test.tsv.zip" "/home/u/dl/comp-y" true])
  /\ kind_of (Foreign (mkExternal "ApiException" "(404) Not Found")) = None
  /\ outcome
       (__init__ None (Some "https://www.kaggle.com/datasets/owner/missing")
          (Some "f.csv") (Some "dl") (Sim.start Sim.w0))
     = Some (Raise (RuntimeError msg_download_failed),
             [EResolve "dl"; EAuthenticate; EMkdir "/home/u/dl/missing" true true;
              EDatasetDownload "owner/missing" "f.csv" "/home/u/dl/missing" true])
  /\ kind_of (RuntimeError msg_download_failed) = Some RemoteDownloadFailed.
Proof. repeat split; vm_compute; reflexivity. Qed.

(** C3, the claim as stated fails: a URL with scheme [http] and host
    [www.kaggle.com] is accepted; the directory is created, the file
    downloaded and loaded. *)
Lemma kaggle_load_http_scheme_accepted :
  Sim.sim_urlparse "http://www.kaggle.com/datasets/owner/name"
  = inr (urllib.mkParseResult "http" "www.kaggle.com" "/datasets/owner/name" "" "" "")
  /\ outcome
       (kaggle_load (pathlib.parse "/home/u/dl")
          "http://www.kaggle.com/datasets/owner/name" "f.csv" (Sim.start Sim.w0))
     = Some (Ok [["h1"; "h2"]],
             [EMkdir "/home/u/dl/name" true true;
              EDatasetDownload "owner/name" "f.csv" "/home/u/dl/name" true;
              EReadCsv "/home/u/dl/name/f.csv" ","]).
Proof. split; vm_compute; reflexivity. Qed.

Lemma kaggle_load_host_check_witness :
  kaggle_load (pathlib.parse "/home/u/dl") "https://example.com/datasets/x" "f.csv"
    (Sim.start Sim.w0)
  = Some (Raise (ValueError (msg_invalid_netloc "example.com")), Sim.start Sim.w0)
  /\ kind_of (ValueError (msg_invalid_netloc "example.com")) = Some InvalidUrl.
Proof.
  refine (proj1 (kaggle_load_host_check (pathlib.parse "/home/u/dl")
                   "https://example.com/datasets/x" "f.csv"
                   (urllib.mkParseResult "https" "example.com" "/datasets/x" "" "" "")
                   (Sim.start Sim.w0) _) _).
  - reflexivity.
  - simpl. discriminate.
Defined.

(** C4, the claim as stated fails twice.  An archive of an archive is
    unpacked through two nested calls, so no cap of the depth (the
    specification suggests 1) is in force; and when the archive does not
    hold the file named after it, the extracted path does not exist and
    the failure is the parser's [FileNotFoundError], not
    UnsupportedFormat. *)
Lemma load_uncapped_and_missing_member :
  outcome (load (pathlib.parse "/data/x.csv.zip.zip") (Sim.start Sim.w0))
  = Some (Ok [["c"; "d"]],
          [EExtractAll "/data/x.csv.zip.zip" "/data";
           EExtractAll "/data/x.csv.zip" "/data";
           EReadCsv "/data/x.csv" ","])
  /\ outcome (load (pathlib.parse "/data/e.csv.zip") (Sim.start Sim.w0))
     = Some (Raise (Foreign (mkExternal "FileNotFoundError" "/data/e.csv")),
             [EExtractAll "/data/e.csv.zip" "/data"; EReadCsv "/data/e.csv" ","])
  /\ option_map (fun x => is_file (pathlib.parse "/data/e.csv") (world (snd x)))
       (load (pathlib.parse "/data/e.csv.zip") (Sim.start Sim.w0))
     = Some (inr false)
  /\ kind_of (Foreign (mkExternal "FileNotFoundError" "/data/e.csv"))
     <> Some UnsupportedFormat.
Proof. repeat split; try (vm_compute; reflexivity). discriminate. Qed.

Lemma load_terminates_witness :
  String.length (pathlib.str (extracted (pathlib.parse "/data/x.csv.zip.zip"))) + 4
  <= String.length (pathlib.str (pathlib.parse "/data/x.csv.zip.zip"))
  /\ exists sep,
       load (pathlib.parse "/data/e.csv") (Sim.start Sim.w0)
       = call (EReadCsv "/data/e.csv" sep) (read_csv "/data/e.csv" sep) (Sim.start Sim.w0).
Proof.
  split.
  - apply (proj1 (proj2 (load_terminates (pathlib.parse "/data/x.csv.zip.zip")
                           (Sim.start Sim.w0)))).
    reflexivity.
  - apply (proj2 (proj2 (load_terminates (pathlib.parse "/data/e.csv")
                           (Sim.start Sim.w0)))).
    reflexivity.
Defined.

Lemma load_zip_then_tsv_witness :
  load (pathlib.parse "/data/t.tsv.zip") (Sim.start Sim.w0)
  = bind (call (EExtractAll "/data/t.tsv.zip" "/data")
               (extractall "/data/t.tsv.zip" "/data"))
         (fun _ => call (EReadCsv "/data/t.tsv" TAB) (read_csv "/data/t.tsv" TAB))
         (Sim.start Sim.w0).
Proof.
  refine (proj2 (proj2 (proj2 (proj2
            (load_zip_then_tsv (pathlib.parse "/data/t.tsv.zip") (Sim.start Sim.w0) _))) _)).
  - reflexivity.
  - reflexivity.
Defined.

Lemma kaggle_load_dataset_destination_witness :
  kaggle_load (pathlib.parse "/home/u/dl") "https://www.kaggle.com/datasets/owner/name"
    "tree nuts.csv" (Sim.start Sim.w0)
  = bind (call (EMkdir "/home/u/dl/name" true true)
               (mkdir (pathlib.parse "/home/u/dl/name") true true))
         (fun _ =>
            bind (call (EDatasetDownload "owner/name" "tree nuts.csv" "/home/u/dl/name" true)
                       (dataset_download_file "owner/name" "tree nuts.csv"
                          "/home/u/dl/name" true))
                 (fun downloaded =>
                    if negb downloaded then raise (RuntimeError msg_download_failed)
                    else load (pathlib.parse "/home/u/dl/name/tree%20nuts.csv")))
         (Sim.start Sim.w0).
Proof.
  refine (kaggle_load_dataset_destination (pathlib.parse "/home/u/dl")
            "https://www.kaggle.com/datasets/owner/name" "tree nuts.csv" "owner" "name"
            (urllib.mkParseResult "https" "www.kaggle.com" "/datasets/owner/name" "" "" "")
            (Sim.start Sim.w0) _ _ _ _); reflexivity.
Defined.

Lemma kaggle_load_competition_data_witness :
  kaggle_load (pathlib.parse "/home/u/dl")
    "https://www.kaggle.com/competitions/comp-x/data" "test.tsv.zip" (Sim.start Sim.w0)
  = kaggle_load (pathlib.parse "/home/u/dl")
      "https://www.kaggle.com/competitions/comp-x" "test.tsv.zip" (Sim.start Sim.w0).
Proof.
  refine (proj2 (proj2
    (kaggle_load_competition_data (pathlib.parse "/home/u/dl")
       "https://www.kaggle.com/competitions/comp-x/data"
       "https://www.kaggle.com/competitions/comp-x" "test.tsv.zip" "comp-x"
       (urllib.mkParseResult "https" "www.kaggle.com" "/competitions/comp-x/data" "" "" "")
       (urllib.mkParseResult "https" "www.kaggle.com" "/competitions/comp-x" "" "" "")
       (Sim.start Sim.w0) _ _ _ _ _ _ _))); reflexivity.
Defined.



Lemma kaggle_load_datasets_prefix_witness :
  kaggle_load (pathlib.parse "/home/u/dl") "https://www.kaggle.com/datasets/x" "f.csv"
    (Sim.start Sim.w0)
  = dataset_branch (pathlib.parse "/home/u/dl") "x" "x" "f.csv" (Sim.start Sim.w0)
  /\ (kaggle_load (pathlib.parse "/home/u/dl") "https://www.kaggle.com/datasets/" "f.csv"
        (Sim.start Sim.w0)
      = dataset_branch (pathlib.parse "/home/u/dl") "" "" "f.csv" (Sim.start Sim.w0)
      /\ pathlib.joinpath (pathlib.parse "/home/u/dl") (urllib.quote "")
         = pathlib.parse "/home/u/dl").
Proof.
  split.
  - refine (proj1 (proj2
      (kaggle_load_datasets_prefix (pathlib.parse "/home/u/dl")
         "https://www.kaggle.com/datasets/x" "f.csv"
         (urllib.mkParseResult "https" "www.kaggle.com" "/datasets/x" "" "" "")
         (Sim.start Sim.w0) _ _ _)) "x" _ _); reflexivity.
  - refine (proj2 (proj2
      (kaggle_load_datasets_prefix (pathlib.parse "/home/u/dl")
         "https://www.kaggle.com/datasets/" "f.csv"
         (urllib.mkParseResult "https" "www.kaggle.com" "/datasets/" "" "" "")
         (Sim.start Sim.w0) _ _ _)) _ _); reflexivity.
Defined.


(** * Further properties of the dispatcher *)

Section DispatcherCalls.

Context {World DataFrame : Type}.
Context {FS : FileSystem World} {PD : Pandas World DataFrame}.
Context {KA : KaggleApi World} {UP : UrlParser}.

Local Open Scope loader_scope.

Lemma load_fuel_calls (n : nat) (p : pathlib.Path) (st : state World) :
  String.length (pathlib.str p) <= n ->
  exists r st' exts last,
    load_fuel n p st = Some (r, st')
    /\ trace st' = trace st ++ exts ++ last
    /\ forallb is_extract exts = true
    /\ forallb is_read last = true
    /\ length last <= 1
    /\ 4 * length exts < String.length (pathlib.str p).
Proof.
  revert p st. induction n as [|n IH]; intros p st Hn.
  - pose proof (str_length_pos p). lia.
  - pose proof (str_length_pos p) as Hpos. cbn [load_fuel].
    assert (Hread : forall sep,
      exists r st' exts last,
        call (EReadCsv (pathlib.str p) sep) (read_csv (pathlib.str p) sep) st
        = Some (r, st')
        /\ trace st' = trace st ++ exts ++ last
        /\ forallb is_extract exts = true
        /\ forallb is_read last = true
        /\ length last <= 1
        /\ 4 * length exts < String.length (pathlib.str p)).
    { intros sep. unfold call.
      destruct (read_csv (pathlib.str p) sep (world st)) as [[x|df] w];
        eexists _, _, [], [EReadCsv (pathlib.str p) sep];
        (split; [reflexivity|]); cbn [trace]; repeat split; simpl; lia. }
    destruct (Py.contains [".csv"; ".txt"] (pathlib.suffix p)); [apply Hread|].
    destruct (String.eqb (pathlib.suffix p) ".tsv"); [apply Hread|].
    destruct (String.eqb (pathlib.suffix p) ".zip") eqn:Z.
    + apply String.eqb_eq in Z. pose proof (zip_step_shorter p Z) as Hshort.
      pose proof (str_length_pos (extracted p)) as Hpos'. unfold extracted in Hpos'.
      unfold bind, call.
      destruct (extractall _ _ _) as [[x|[]] w].
      * eexists _, _, [EExtractAll _ _], []. split; [reflexivity|].
        cbn [trace]. repeat split; simpl; lia.
      * cbn [world trace].
        edestruct (IH (pathlib.parse
                         (Py.drop_end (String.length (pathlib.suffix p)) (pathlib.str p)))
                      (mkState w (trace st ++ [EExtractAll (pathlib.str p)
                                                 (pathlib.str (pathlib.parent p))])))
          as (r & st' & exts & last & Hrun & Htr & Hex & Hrd & Hlen & Hb); [lia|].
        exists r, st', (EExtractAll (pathlib.str p) (pathlib.str (pathlib.parent p)) :: exts), last.
        split; [exact Hrun|]. cbn [trace] in Htr.
        split; [rewrite Htr, <- app_assoc; reflexivity|].
        repeat split; try assumption. simpl length. lia.
    + exists (Raise (NotImplementedError ("load " +:+ pathlib.suffix p))), st, [], [].
      repeat split; simpl; try lia. now rewrite app_nil_r.
Qed.

(** X1: whatever the path and the state, [load] returns, and the calls
    it makes are calls of [extractall] followed by at most one call of
    [read_csv]; four times the number of extractions is less than the
    length of the path. *)
Theorem load_calls (p : pathlib.Path) (st : state World) :
  exists r st' exts last,
    load p st = Some (r, st')
    /\ trace st' = trace st ++ exts ++ last
    /\ forallb is_extract exts = true
    /\ forallb is_read last = true
    /\ length last <= 1
    /\ 4 * length exts < String.length (pathlib.str p).
Proof. apply load_fuel_calls. reflexivity. Qed.

Lemma load_fuel_table_origin (n : nat) (p : pathlib.Path) (st st' : state World)
    (df : DataFrame) :
  load_fuel n p st = Some (Ok df, st') ->
  exists q sep w pre,
    trace st' = pre ++ [EReadCsv (pathlib.str q) sep]
    /\ read_csv (pathlib.str q) sep w = (inr df, world st')
    /\ ((Py.contains [".csv"; ".txt"] (pathlib.suffix q) = true /\ sep = ",")
        \/ (pathlib.suffix q = ".tsv" /\ sep = TAB)).
Proof.
  revert p st. induction n as [|n IH]; intros p st; [discriminate|].
  cbn [load_fuel].
  destruct (Py.contains [".csv"; ".txt"] (pathlib.suffix p)) eqn:E1.
  - unfold call. destruct (read_csv _ _ _) as [[x|a] w] eqn:R; intros [= <- <-].
    exists p, ",", (world st), (trace st). cbn [world trace]. auto.
  - destruct (String.eqb (pathlib.suffix p) ".tsv") eqn:E2.
    + unfold call. destruct (read_csv _ _ _) as [[x|a] w] eqn:R; intros [= <- <-].
      apply String.eqb_eq in E2.
      exists p, TAB, (world st), (trace st). cbn [world trace]. auto.
    + destruct (String.eqb (pathlib.suffix p) ".zip"); [|discriminate].
      unfold bind, call. destruct (extractall _ _ _) as [[x|[]] w]; [discriminate|].
      apply IH.
Qed.

(** X2: a table returned by [load] is the table the last call, a
    [read_csv], returned; that call read a path with suffix [.csv] or
    [.txt] with separator [","], or a path with suffix [.tsv] with the
    tab separator. *)
Theorem load_table_origin (p : pathlib.Path) (st st' : state World) (df : DataFrame) :
  load p st = Some (Ok df, st') ->
  exists q sep w pre,
    trace st' = pre ++ [EReadCsv (pathlib.str q) sep]
    /\ read_csv (pathlib.str q) sep w = (inr df, world st')
    /\ ((Py.contains [".csv"; ".txt"] (pathlib.suffix q) = true /\ sep = ",")
        \/ (pathlib.suffix q = ".tsv" /\ sep = TAB)).
Proof. apply load_fuel_table_origin. Qed.

Lemma dispatch_cases (s : string) :
  Py.contains [".csv"; ".txt"; ".tsv"; ".zip"] s = false ->
  Py.contains [".csv"; ".txt"] s = false
  /\ String.eqb s ".tsv" = false /\ String.eqb s ".zip" = false.
Proof.
  unfold Py.contains. simpl. rewrite !orb_false_iff. tauto.
Qed.

Lemma load_rejects (p : pathlib.Path) (st : state World) :
  Py.contains [".csv"; ".txt"; ".tsv"; ".zip"] (pathlib.suffix p) = false ->
  load p st = Some (Raise (NotImplementedError ("load " +:+ pathlib.suffix p)), st).
Proof.
  intros H. apply dispatch_cases in H as (H1 & H2 & H3).
  now rewrite load_unfold, H1, H2, H3.
Qed.

(** X3: an extension outside [.csv], [.txt], [.tsv] and [.zip] is
    rejected with [NotImplementedError("load <suffix>")] without any
    call; reached through an archive, the same happens after the
    archive has been unpacked, and the error names the inner suffix. *)
Theorem load_unsupported (p : pathlib.Path) (st : state World) :
  (Py.contains [".csv"; ".txt"; ".tsv"; ".zip"] (pathlib.suffix p) = false ->
   load p st = Some (Raise (NotImplementedError ("load " +:+ pathlib.suffix p)), st))
  /\ (pathlib.suffix p = ".zip" ->
      Py.contains [".csv"; ".txt"; ".tsv"; ".zip"] (pathlib.suffix (extracted p)) = false ->
      forall w,
        extractall (pathlib.str p) (pathlib.str (pathlib.parent p)) (world st) = (inr tt, w) ->
        load p st
        = Some (Raise (NotImplementedError ("load " +:+ pathlib.suffix (extracted p))),
                mkState w (trace st ++ [EExtractAll (pathlib.str p)
                                          (pathlib.str (pathlib.parent p))]))).
Proof.
  split; [apply load_rejects|].
  intros Hz Hin w Hex. rewrite load_unfold, Hz. cbn [Py.contains existsb String.eqb
    Ascii.eqb Bool.eqb orb andb]. unfold bind, call. rewrite Hex.
  now rewrite load_rejects.
Qed.

Lemma dispatch_lowercase (s : string) :
  Py.contains [".csv"; ".txt"; ".tsv"; ".zip"] s = true -> s = Py.lower s.
Proof.
  unfold Py.contains. simpl. rewrite !orb_true_iff, !String.eqb_eq.
  intros [-> | [-> | [-> | [-> | H]]]]; try reflexivity. discriminate.
Qed.

(** X4: the dispatcher compares the suffix with lowercase literals
    only.  A path whose suffix has an uppercase letter ([.ZIP], [.Csv],
    [.TSV]) is rejected with [NotImplementedError], without any call,
    also when the file was just downloaded. *)
Theorem load_case_sensitive (p : pathlib.Path) (st : state World) :
  pathlib.suffix p <> Py.lower (pathlib.suffix p) ->
  load p st = Some (Raise (NotImplementedError ("load " +:+ pathlib.suffix p)), st).
Proof.
  intros H. apply load_rejects.
  destruct (Py.contains [".csv"; ".txt"; ".tsv"; ".zip"] (pathlib.suffix p)) eqn:E;
    [|reflexivity].
  now apply dispatch_lowercase in E.
Qed.

End DispatcherCalls.

Lemma extractions_are_extractions (n : nat) :
  forallb is_extract (Mock.extractions n) = true.
Proof. induction n as [|n IH]; [reflexivity | exact IH]. Qed.

(** X17: the depth of the recursion of [load] has no bound of its own.
    For every [n] there is a path, [/d/x.csv] followed by [n] suffixes
    [.zip], that [load] unpacks through [n] nested extractions before it
    reads the table, when every extraction succeeds. *)
Theorem load_depth_has_no_bound (n : nat) :
  exists p exts,
    load p (mkState tt [])
    = Some (Ok "/d/x.csv", mkState tt (exts ++ [EReadCsv "/d/x.csv" ","]))
    /\ forallb is_extract exts = true
    /\ length exts = n.
Proof.
  exists (Mock.nested n), (Mock.extractions n).
  destruct (load_depth_unbounded n []) as [Hrun Hlen].
  split; [exact Hrun|]. split; [apply extractions_are_extractions | exact Hlen].
Qed.

(** * Further properties of the constructor *)

Section ConstructorRuns.

Context {World DataFrame : Type}.
Context {FS : FileSystem World} {PD : Pandas World DataFrame}.
Context {KA : KaggleApi World} {UP : UrlParser}.

Local Open Scope loader_scope.


Lemma init_local_steps (p : string) (u f d : option string) (st : state World) :
  Py.all [Py.truthy u; Py.truthy f; Py.truthy d] = false ->
  __init__ (Some p) u f d st
  = (let path := pathlib.parse p in
     let st1 := mkState (world st) (trace st ++ [EIsFile (pathlib.str path)]) in
     match is_file path (world st) with
     | inl x => Some (Raise (Foreign x), st1)
     | inr false => Some (Raise (ValueError msg_not_a_file), st1)
     | inr true =>
         if negb (Py.contains supported_formats (pathlib.suffix path)) then
           Some (Raise (ValueError msg_invalid_extension),
                 mkState (world st)
                   (trace st1 ++ [EPrint ("Supported formats " +:+ supported_formats_repr)]))
         else
           (df <- call (EReadCsv (pathlib.str path) ",") (read_csv (pathlib.str path) ",") ;;
            ret (mkData (Some path) df false None)) st1
     end).
Proof.
  intros Ha. rewrite init_local by assumption. cbv zeta.
  unfold validate_local_path. unfold bind at 1 2. unfold query, ask, call at 1.
  cbn [world trace].
  destruct (is_file (pathlib.parse p) (world st)) as [x|[|]]; cbn [negb];
    [reflexivity | | reflexivity].
  destruct (Py.contains supported_formats (pathlib.suffix (pathlib.parse p))) eqn:S;
    cbn [negb]; [|reflexivity].
  unfold ret at 1. unfold bind. rewrite load_unfold.
  replace (Py.contains [".csv"; ".txt"] (pathlib.suffix (pathlib.parse p))) with true;
    [reflexivity|].
  apply supported_formats_spec in S as [-> | ->]; reflexivity.
Qed.

Lemma init_rejected (path u f d : option string) (st : state World) :
  is_not_None path = Py.all [Py.truthy u; Py.truthy f; Py.truthy d] ->
  __init__ path u f d st = Some (Raise (ValueError msg_invalid_combination), st).
Proof.
  intros H. unfold __init__. rewrite <- H. now destruct (is_not_None path).
Qed.


End ConstructorRuns.

(** * Further properties of the remote fetcher *)

Section RemoteRuns.

Context {World DataFrame : Type}.
Context {FS : FileSystem World} {PD : Pandas World DataFrame}.
Context {KA : KaggleApi World} {UP : UrlParser}.

Local Open Scope loader_scope.

Lemma load_calls_shape (p : pathlib.Path) (st : state World) :
  exists r st' es,
    load p st = Some (r, st')
    /\ trace st' = trace st ++ es
    /\ forallb (fun x => is_extract x || is_read x) es = true.
Proof.
  destruct (load_fuel_calls _ p st (le_n _))
    as (r & st' & exts & last & Hrun & Htr & Hex & Hrd & _).
  fold (load p) in Hrun.
  exists r, st', (exts ++ last). split; [exact Hrun|]. split; [exact Htr|].
  rewrite forallb_app. apply andb_true_iff. split.
  - rewrite forallb_forall in *. intros x Hx. now rewrite (Hex x Hx).
  - rewrite forallb_forall in *. intros x Hx. rewrite (Hrd x Hx). apply orb_true_r.
Qed.

Lemma competition_branch_calls (dp : pathlib.Path) (name file : string) (st : state World) :
  exists r st' es,
    competition_branch dp name file st = Some (r, st')
    /\ trace st' = trace st ++ es /\ fetch_shape es = true.
Proof.
  unfold competition_branch, bind, call.
  destruct (mkdir _ _ _ _) as [[x|[]] w].
  - eexists _, _, [_]. split; [reflexivity|]. split; reflexivity.
  - cbn [world trace].
    destruct (competition_download_file _ _ _ _ _) as [[x|[]] w'].
    + eexists _, _, [_; _]. split; [reflexivity|]. cbn [trace].
      split; [now rewrite <- app_assoc|].
      simpl. now rewrite String.eqb_refl.
    + cbn [world trace].
      edestruct load_calls_shape as (r & st' & es & Hrun & Htr & Hes).
      eexists r, st', (_ :: _ :: es). split; [exact Hrun|].
      cbn [trace] in Htr. split; [rewrite Htr, <- !app_assoc; reflexivity|].
      simpl. now rewrite String.eqb_refl, Hes.
Qed.

Lemma dataset_branch_calls (dp : pathlib.Path) (id name file : string) (st : state World) :
  exists r st' es,
    dataset_branch dp id name file st = Some (r, st')
    /\ trace st' = trace st ++ es /\ fetch_shape es = true.
Proof.
  unfold dataset_branch, bind, call.
  destruct (mkdir _ _ _ _) as [[x|[]] w].
  - eexists _, _, [_]. split; [reflexivity|]. split; reflexivity.
  - cbn [world trace].
    destruct (dataset_download_file _ _ _ _ _) as [[x|[|]] w']; cbn [negb world trace].
    + eexists _, _, [_; _]. split; [reflexivity|]. cbn [trace].
      split; [now rewrite <- app_assoc|].
      simpl. now rewrite String.eqb_refl.
    + edestruct load_calls_shape as (r & st' & es & Hrun & Htr & Hes).
      eexists r, st', (_ :: _ :: es). split; [exact Hrun|].
      cbn [trace] in Htr. split; [rewrite Htr, <- !app_assoc; reflexivity|].
      simpl. now rewrite String.eqb_refl, Hes.
    + eexists _, _, [_; _]. split; [reflexivity|]. cbn [trace].
      split; [now rewrite <- app_assoc|].
      simpl. now rewrite String.eqb_refl.
Qed.

(** The four ways [kaggle_load] goes on after parsing the URL. *)
Lemma kaggle_load_cases (dp : pathlib.Path) (url file : string) (st : state World) :
  (exists x, urlparse url = inl x
             /\ kaggle_load dp url file st = Some (Raise (Foreign x), st))
  \/ (exists uc, urlparse url = inr uc
       /\ ((urllib.netloc uc <> "www.kaggle.com"
            /\ kaggle_load dp url file st
               = Some (Raise (ValueError (msg_invalid_netloc (urllib.netloc uc))), st))
           \/ (urllib.netloc uc = "www.kaggle.com"
               /\ Py.startswith (urllib.path uc) "/competitions/" = true
               /\ kaggle_load dp url file st
                  = competition_branch dp (competition_name_of (urllib.path uc)) file st)
           \/ (urllib.netloc uc = "www.kaggle.com"
               /\ Py.startswith (urllib.path uc) "/competitions/" = false
               /\ Py.startswith (urllib.path uc) "/datasets/" = true
               /\ kaggle_load dp url file st
                  = dataset_branch dp (Py.drop 10 (urllib.path uc))
                      (Py.last_item (Py.split "/" (Py.drop 10 (urllib.path uc)))) file st)
           \/ (urllib.netloc uc = "www.kaggle.com"
               /\ Py.startswith (urllib.path uc) "/competitions/" = false
               /\ Py.startswith (urllib.path uc) "/datasets/" = false
               /\ kaggle_load dp url file st
                  = Some (Raise (ValueError (msg_invalid_url_path (urllib.path uc))), st)))).
Proof.
  destruct (urlparse url) as [x|uc] eqn:Hp.
  - left. exists x. split; [reflexivity|]. unfold kaggle_load. now rewrite Hp.
  - right. exists uc. split; [reflexivity|].
    destruct (string_dec (urllib.netloc uc) "www.kaggle.com") as [Hn|Hn].
    + right.
      destruct (Py.startswith (urllib.path uc) "/competitions/") eqn:Hc.
      * left. split; [exact Hn|]. split; [reflexivity|].
        now apply kaggle_load_competition.
      * right. destruct (Py.startswith (urllib.path uc) "/datasets/") eqn:Hd.
        -- left. repeat (split; [assumption || reflexivity|]).
           now apply kaggle_load_dataset.
        -- right. repeat (split; [assumption || reflexivity|]).
           unfold kaggle_load. rewrite Hp.
           cbv beta iota delta [lift bind ret raise].
           now rewrite Hn, Hc, Hd, String.eqb_refl.
    + left. split; [exact Hn|]. now apply kaggle_load_invalid_netloc.
Qed.

(** X7: whatever the URL, the file name and the state, [kaggle_load]
    returns, and the calls it makes are: none; or [mkdir] with
    [parents=True, exist_ok=True]; or that [mkdir], one download into the
    directory just created, with [force=True], and after it calls of
    [extractall] and [read_csv] only.  No download happens without the
    directory, and none happens twice. *)
Theorem kaggle_load_calls (dp : pathlib.Path) (url file : string) (st : state World) :
  exists r st' es,
    kaggle_load dp url file st = Some (r, st')
    /\ trace st' = trace st ++ es
    /\ fetch_shape es = true.
Proof.
  assert (Hnone : forall r : result DataFrame,
    exists r' st' es, Some (r, st) = Some (r', st')
                      /\ trace st' = trace st ++ es /\ fetch_shape es = true).
  { intros r. exists r, st, []. now rewrite app_nil_r. }
  destruct (kaggle_load_cases dp url file st)
    as [(x & _ & ->) | (uc & _ & [(_ & ->) | [(_ & _ & ->) | [(_ & _ & _ & ->) | (_ & _ & _ & ->)]]])].
  - apply Hnone.
  - apply Hnone.
  - apply competition_branch_calls.
  - apply dataset_branch_calls.
  - apply Hnone.
Qed.

Lemma competition_branch_raises (dp : pathlib.Path) (name file : string)
    (st st' : state World) (e : exn) :
  competition_branch dp name file st = Some (Raise e, st') ->
  (exists x, e = Foreign x) \/ (exists m, e = NotImplementedError m).
Proof.
  unfold competition_branch, bind, call.
  destruct (mkdir _ _ _ _) as [[x|[]] w]; [intros [= <- <-]; eauto|].
  cbn [world trace].
  destruct (competition_download_file _ _ _ _ _) as [[x|[]] w']; [intros [= <- <-]; eauto|].
  apply load_raises.
Qed.

Lemma dataset_branch_raises_kinds (dp : pathlib.Path) (id name file : string)
    (st st' : state World) (e : exn) :
  dataset_branch dp id name file st = Some (Raise e, st') ->
  (exists x, e = Foreign x) \/ (exists m, e = NotImplementedError m)
  \/ e = RuntimeError msg_download_failed.
Proof.
  unfold dataset_branch, bind, call.
  destruct (mkdir _ _ _ _) as [[x|[]] w]; [intros [= <- <-]; eauto|].
  cbn [world trace].
  destruct (dataset_download_file _ _ _ _ _) as [[x|[|]] w']; cbn [negb].
  - intros [= <- <-]; eauto.
  - intros H. apply load_raises in H. tauto.
  - intros [= <- <-]; eauto.
Qed.

Lemma kind_of_invalid_netloc (given : string) :
  kind_of (ValueError (msg_invalid_netloc given)) = Some InvalidUrl.
Proof. reflexivity. Qed.

Lemma kind_of_invalid_url_path (given : string) :
  kind_of (ValueError (msg_invalid_url_path given)) = Some InvalidUrl.
Proof. reflexivity. Qed.

(** X8: [kaggle_load] fails with an error of kind InvalidUrl exactly
    when the host of the URL is not [www.kaggle.com] or its path starts
    with neither [/competitions/] nor [/datasets/]; in that case nothing
    was called. *)
Theorem kaggle_load_invalid_url_iff (dp : pathlib.Path) (url file : string)
    (uc : urllib.ParseResult) (st st' : state World) (r : result DataFrame) :
  urlparse url = inr uc ->
  kaggle_load dp url file st = Some (r, st') ->
  ((exists e, r = Raise e /\ kind_of e = Some InvalidUrl) <->
   (urllib.netloc uc <> "www.kaggle.com"
    \/ (Py.startswith (urllib.path uc) "/competitions/" = false
        /\ Py.startswith (urllib.path uc) "/datasets/" = false)))
  /\ ((exists e, r = Raise e /\ kind_of e = Some InvalidUrl) -> st' = st).
Proof.
  intros Hp Hrun.
  destruct (kaggle_load_cases dp url file st)
    as [(x & Hx & _) | (uc' & Huc & Hcases)]; [congruence|].
  assert (uc' = uc) by congruence. subst uc'.
  destruct Hcases as [(Hn & H) | [(Hn & Hc & H) | [(Hn & Hc & Hd & H) | (Hn & Hc & Hd & H)]]];
    rewrite H in Hrun.
  - injection Hrun as <- <-. split; [|reflexivity].
    split; [auto|]. intros _. eexists. split; [reflexivity|].
    apply kind_of_invalid_netloc.
  - assert (Hno : ~ exists e, r = Raise e /\ kind_of e = Some InvalidUrl).
    { intros (e & -> & Hk). apply competition_branch_raises in Hrun as [[x ->] | [m ->]];
        discriminate. }
    split; [|intros Hyes; contradiction].
    split; [intros Hyes; contradiction|].
    intros [Hbad | [Hbad _]]; congruence.
  - assert (Hno : ~ exists e, r = Raise e /\ kind_of e = Some InvalidUrl).
    { intros (e & -> & Hk).
      apply dataset_branch_raises_kinds in Hrun as [[x ->] | [[m ->] | ->]]; discriminate. }
    split; [|intros Hyes; contradiction].
    split; [intros Hyes; contradiction|].
    intros [Hbad | [_ Hbad]]; congruence.
  - injection Hrun as <- <-. split; [|reflexivity].
    split; [auto|]. intros _. eexists. split; [reflexivity|].
    apply kind_of_invalid_url_path.
Qed.

Lemma kaggle_load_raises (dp : pathlib.Path) (url file : string)
    (st st' : state World) (e : exn) :
  kaggle_load dp url file st = Some (Raise e, st') ->
  (exists x, e = Foreign x)
  \/ In (kind_of e) [Some InvalidUrl; Some RemoteDownloadFailed; Some UnsupportedFormat].
Proof.
  intros Hrun.
  destruct (kaggle_load_cases dp url file st)
    as [(x & _ & H) | (uc & _ & [(_ & H) | [(_ & _ & H) | [(_ & _ & _ & H) | (_ & _ & _ & H)]]])];
    rewrite H in Hrun.
  - injection Hrun as <- <-. eauto.
  - injection Hrun as <- <-. right. left. symmetry. apply kind_of_invalid_netloc.
  - apply competition_branch_raises in Hrun as [[x ->] | [m ->]]; [eauto|].
    right. simpl. tauto.
  - apply dataset_branch_raises_kinds in Hrun as [[x ->] | [[m ->] | ->]]; [eauto| |];
      right; simpl; tauto.
  - injection Hrun as <- <-. right. left. symmetry. apply kind_of_invalid_url_path.
Qed.

Lemma init_remote (u f d : option string) (st : state World) :
  Py.all [Py.truthy u; Py.truthy f; Py.truthy d] = true ->
  __init__ None u f d st
  = (self_download_path <-
       query (EResolve (pathlib.str (pathlib.parse (given d))))
             (resolve (pathlib.parse (given d))) ;;
     call EAuthenticate authenticate ;;
     df <- kaggle_load self_download_path (given u) (given f) ;;
     ret (mkData None df true (Some self_download_path))) st.
Proof. intros H. unfold __init__. rewrite H. reflexivity. Qed.

(** X9: an exception the constructor raises is either a collaborator's
    own, or one of the program's, and then its kind depends on the mode:
    with a path given it is InvalidRequest, PathNotFound or
    UnsupportedFormat; without a path it is InvalidRequest, InvalidUrl,
    RemoteDownloadFailed or UnsupportedFormat.  A remote load never
    reports PathNotFound, a local one never InvalidUrl. *)
Theorem init_error_kinds (path u f d : option string) (st st' : state World) (e : exn) :
  __init__ path u f d st = Some (Raise e, st') ->
  (exists x, e = Foreign x)
  \/ (is_not_None path = true
      /\ In (kind_of e) [Some InvalidRequest; Some PathNotFound; Some UnsupportedFormat])
  \/ (is_not_None path = false
      /\ In (kind_of e) [Some InvalidRequest; Some InvalidUrl;
                         Some RemoteDownloadFailed; Some UnsupportedFormat]).
Proof.
  destruct (Py.all [Py.truthy u; Py.truthy f; Py.truthy d]) eqn:Ha;
    destruct path as [p|].
  - rewrite init_rejected by now rewrite Ha.
    intros [= <- <-]. right. left. split; [reflexivity|]. simpl. tauto.
  - rewrite init_remote by assumption. unfold bind, query, call. cbn [world trace].
    destruct (resolve _ _) as [x|dir]; [intros [= <- <-]; eauto|]. cbn [world trace].
    destruct (authenticate (world st)) as [[x|[]] w]; [intros [= <- <-]; eauto|].
    destruct (kaggle_load _ _ _ _) as [[[df|e'] st'']|] eqn:Hk; [discriminate | | discriminate].
    intros [= <- <-]. apply kaggle_load_raises in Hk as [Hk | Hk]; [eauto|].
    right. right. split; [reflexivity|]. simpl in *. tauto.
  - rewrite init_local_steps by assumption. cbv zeta.
    destruct (is_file (pathlib.parse p) (world st)) as [x|[|]]; cbn [negb].
    + intros [= <- <-]. eauto.
    + destruct (Py.contains supported_formats (pathlib.suffix (pathlib.parse p)));
        cbn [negb].
      * unfold bind, call. cbn [world trace].
        destruct (read_csv _ _ _) as [[x|df] w]; [intros [= <- <-]; eauto | discriminate].
      * intros [= <- <-]. right. left. split; [reflexivity|]. simpl. tauto.
    + intros [= <- <-]. right. left. split; [reflexivity|]. simpl. tauto.
  - rewrite init_rejected by now rewrite Ha.
    intros [= <- <-]. right. right. split; [reflexivity|]. simpl. tauto.
Qed.

(** X10: after a successful construction the slots of the object are
    those of the mode: with a path given, [path] holds the parsed path
    and [kaggle_api] and [download_path] are unset; without, [path] is
    unset, [kaggle_api] is set and [download_path] holds the resolved
    download directory, the path [resolve] returned. *)
Theorem init_slots (local_path u f d : option string) (st st' : state World)
    (o : Data DataFrame) :
  __init__ local_path u f d st = Some (Ok o, st') ->
  match local_path with
  | Some p =>
      path _ o = Some (pathlib.parse p)
      /\ kaggle_api _ o = false /\ download_path _ o = None
  | None =>
      path _ o = None
      /\ kaggle_api _ o = true
      /\ exists dir,
           resolve (pathlib.parse (given d)) (world st) = inr dir
           /\ download_path _ o = Some dir
  end.
Proof.
  destruct (Py.all [Py.truthy u; Py.truthy f; Py.truthy d]) eqn:Ha;
    destruct local_path as [p|].
  - rewrite init_rejected by now rewrite Ha. discriminate.
  - rewrite init_remote by assumption. unfold bind, query, call, ret. cbn [world trace].
    destruct (resolve _ _) as [x|dir]; [discriminate|]. cbn [world trace].
    destruct (authenticate (world st)) as [[x|[]] w]; [discriminate|].
    destruct (kaggle_load _ _ _ _) as [[[df|e'] st'']|]; [|discriminate|discriminate].
    intros [= <- <-]. eauto.
  - rewrite init_local_steps by assumption. cbv zeta.
    destruct (is_file (pathlib.parse p) (world st)) as [x|[|]]; cbn [negb];
      [discriminate | | discriminate].
    destruct (Py.contains supported_formats (pathlib.suffix (pathlib.parse p)));
      cbn [negb]; [|discriminate].
    unfold bind, call, ret. cbn [world trace].
    destruct (read_csv _ _ _) as [[x|df] w]; [discriminate|].
    intros [= <- <-]. auto.
  - rewrite init_rejected by now rewrite Ha. discriminate.
Qed.

(** X11: in remote mode the download directory is resolved, then the
    client authenticated, and only then the URL looked at.  When
    [resolve] raises, that exception is the outcome and nothing else was
    called; when it returns and [authenticate] raises, that exception is
    the outcome and nothing else was called; when both return and the
    URL has a foreign host, the InvalidUrl error comes after the
    authentication has taken place. *)
Theorem init_remote_authenticates_first (u f d : option string) (st : state World) :
  Py.all [Py.truthy u; Py.truthy f; Py.truthy d] = true ->
  (forall x,
      resolve (pathlib.parse (given d)) (world st) = inl x ->
      __init__ None u f d st
      = Some (Raise (Foreign x),
              mkState (world st)
                (trace st ++ [EResolve (pathlib.str (pathlib.parse (given d)))])))
  /\ (forall dir x w,
        resolve (pathlib.parse (given d)) (world st) = inr dir ->
        authenticate (world st) = (inl x, w) ->
        __init__ None u f d st
        = Some (Raise (Foreign x),
                mkState w (trace st ++ [EResolve (pathlib.str (pathlib.parse (given d)));
                                        EAuthenticate])))
  /\ (forall dir w uc,
        resolve (pathlib.parse (given d)) (world st) = inr dir ->
        authenticate (world st) = (inr tt, w) ->
        urlparse (given u) = inr uc ->
        urllib.netloc uc <> "www.kaggle.com" ->
        __init__ None u f d st
        = Some (Raise (ValueError (msg_invalid_netloc (urllib.netloc uc))),
                mkState w (trace st ++ [EResolve (pathlib.str (pathlib.parse (given d)));
                                        EAuthenticate]))).
Proof.
  intros Ha. split; [|split].
  - intros x Hres. rewrite init_remote by assumption.
    unfold bind, query, call. cbn [world trace]. now rewrite Hres.
  - intros dir x w Hres Hauth. rewrite init_remote by assumption.
    unfold bind, query, call. cbn [world trace]. rewrite Hres. cbn [world trace].
    rewrite Hauth. now rewrite <- app_assoc.
  - intros dir w uc Hres Hauth Hp Hn. rewrite init_remote by assumption.
    unfold bind, query, call. cbn [world trace]. rewrite Hres. cbn [world trace].
    rewrite Hauth.
    rewrite (kaggle_load_invalid_netloc _ _ _ uc _ Hp Hn).
    now rewrite <- app_assoc.
Qed.

(** X12: on a [/datasets/] URL, when [mkdir] raises, no download is
    attempted and the exception of [mkdir] is the outcome; when the
    directory is there and the client returns a falsy result, the
    outcome is the [RuntimeError] of kind RemoteDownloadFailed and
    nothing is loaded. *)
Theorem kaggle_load_dataset_stops (dp : pathlib.Path) (url file : string)
    (uc : urllib.ParseResult) (st : state World) :
  urlparse url = inr uc ->
  urllib.netloc uc = "www.kaggle.com" ->
  Py.startswith (urllib.path uc) "/datasets/" = true ->
  let id := Py.drop 10 (urllib.path uc) in
  let dest := pathlib.joinpath dp (urllib.quote (Py.last_item (Py.split "/" id))) in
  (forall x w,
      mkdir dest true true (world st) = (inl x, w) ->
      kaggle_load dp url file st
      = Some (Raise (Foreign x),
              mkState w (trace st ++ [EMkdir (pathlib.str dest) true true])))
  /\ (forall w1 w2,
        mkdir dest true true (world st) = (inr tt, w1) ->
        dataset_download_file id file (pathlib.str dest) true w1 = (inr false, w2) ->
        kaggle_load dp url file st
        = Some (Raise (RuntimeError msg_download_failed),
                mkState w2 (trace st ++ [EMkdir (pathlib.str dest) true true;
                                         EDatasetDownload id file (pathlib.str dest) true]))
        /\ kind_of (RuntimeError msg_download_failed) = Some RemoteDownloadFailed).
Proof.
  intros Hp Hn Hs id dest.
  rewrite (kaggle_load_dataset dp url file uc st Hp Hn Hs).
  unfold dataset_branch. fold id. fold dest. split.
  - intros x w Hm. unfold bind, call. now rewrite Hm.
  - intros w1 w2 Hm Hd. split; [|reflexivity].
    unfold bind, call. rewrite Hm. cbn [world trace]. rewrite Hd.
    cbn [negb trace]. unfold raise. now rewrite <- app_assoc.
Qed.

End RemoteRuns.

(** * Where the downloads go *)

Lemma drop_app_plus (a b : string) (k : nat) :
  Py.drop (String.length a + k) (a +:+ b) = Py.drop k b.
Proof.
  induction a as [|c a IH]; [reflexivity|].
  change (String c a +:+ b) with (String c (a +:+ b)). simpl. exact IH.
Qed.

Lemma endswith_no_sep (X y : string) :
  y <> "" -> Py.find "/" y = None -> Py.endswith (X +:+ y) "/" = false.
Proof.
  intros Hy Hf. destruct (Py.endswith (X +:+ y) "/") eqn:E; [|reflexivity].
  unfold Py.endswith in E. apply andb_true_iff in E as [_ E].
  apply String.eqb_eq in E. rewrite length_append in E.
  assert (Hl : 1 <= String.length y) by (destruct y; [contradiction | simpl; lia]).
  replace (String.length X + String.length y - String.length "/")
    with (String.length X + (String.length y - 1)) in E by (simpl; lia).
  rewrite drop_app_plus in E.
  pose proof (take_drop (String.length y - 1) y) as Hsplit. rewrite E in Hsplit.
  rewrite Hsplit in Hf. now apply find_app_sep in Hf.
Qed.

Lemma hex_digit_not_sep (n : nat) :
  n < 16 -> Ascii.eqb (urllib.hex_digit n) "/" = false.
Proof.
  intros H. do 16 (destruct n as [|n]; [reflexivity|]). lia.
Qed.

Lemma quote_byte_no_sep (c : ascii) :
  Ascii.eqb c "/" = false -> Py.find "/" (urllib.quote_byte c) = None.
Proof.
  intros Hc. unfold urllib.quote_byte.
  destruct (urllib.always_safe c || Ascii.eqb c "/").
  - simpl. now rewrite Hc.
  - pose proof (nat_ascii_bounded c) as Hb.
    assert (H1 : nat_of_ascii c / 16 < 16) by (apply Nat.Div0.div_lt_upper_bound; lia).
    assert (H2 : nat_of_ascii c mod 16 < 16) by (apply Nat.mod_upper_bound; lia).
    cbn [Py.find]. rewrite (hex_digit_not_sep _ H1), (hex_digit_not_sep _ H2).
    reflexivity.
Qed.

(** [quote] leaves a string without [/] without [/]. *)
Lemma quote_no_sep (x : string) :
  Py.find "/" x = None -> Py.find "/" (urllib.quote x) = None.
Proof.
  induction x as [|c x IH]; [reflexivity|]. simpl.
  destruct (Ascii.eqb c "/") eqn:Hc; [discriminate|].
  destruct (Py.find "/" x); [discriminate|]. intros _.
  apply find_app_none; [now apply quote_byte_no_sep | now apply IH].
Qed.

Lemma split_parts_no_sep (s : string) :
  Forall (fun y => Py.find "/" y = None) (Py.split "/" s).
Proof.
  induction s as [|a s IH]; simpl; [now repeat constructor|].
  destruct (Ascii.eqb a "/") eqn:E; [now constructor|].
  destruct (Py.split "/" s) as [|w ws];
    [constructor; [simpl; now rewrite E | constructor]|].
  inversion IH as [|? ? Hw Hws]; subst. constructor; [|assumption].
  simpl. now rewrite E, Hw.
Qed.

Lemma last_item_Forall (P : string -> Prop) (l : list string) :
  P "" -> Forall P l -> P (Py.last_item l).
Proof.
  intros H0 HF. unfold Py.last_item. induction HF as [|x l Hx Hl IH]; [exact H0|].
  destruct l; [exact Hx | exact IH].
Qed.

Lemma last_item_Forall_ne (P : string -> Prop) (l : list string) :
  l <> [] -> Forall P l -> P (Py.last_item l).
Proof.
  intros Hne HF. unfold Py.last_item.
  induction HF as [|x l Hx Hl IH]; [congruence|].
  destruct l; [exact Hx|]. apply IH. discriminate.
Qed.

(** The last segment of a dataset identifier holds no [/]. *)
Lemma last_segment_no_sep (id : string) :
  Py.find "/" (Py.last_item (Py.split "/" id)) = None.
Proof. apply last_item_Forall; [reflexivity | apply split_parts_no_sep]. Qed.

Lemma join_snoc_part (l : list string) (x : string) :
  l <> [] -> Py.join "/" (l ++ [x]) = Py.join "/" l +:+ "/" +:+ x.
Proof.
  induction l as [|y l IH]; [congruence|]. intros _.
  destruct l as [|z l]; [reflexivity|].
  change ((y :: z :: l) ++ [x]) with (y :: z :: (l ++ [x])).
  rewrite !join_cons.
  change (z :: l ++ [x]) with ((z :: l) ++ [x]).
  rewrite IH by discriminate.
  change (String "/" (Py.join "/" (z :: l) +:+ "/" +:+ x))
    with (String "/" (Py.join "/" (z :: l)) +:+ "/" +:+ x).
  now rewrite append_assoc.
Qed.

Lemma wf_parts_all (l : list string) :
  forallb pathlib.wf_part l = true ->
  Forall (fun y => y <> "" /\ Py.find "/" y = None) l.
Proof.
  intros H. apply List.Forall_forall. intros y Hy.
  rewrite forallb_forall in H. specialize (H y Hy).
  unfold pathlib.wf_part, pathlib.keep_part in H.
  apply andb_true_iff in H as [H1 H2]. apply andb_true_iff in H1 as [H1 _].
  split; [|now destruct (Py.find "/" y)].
  intros ->. discriminate.
Qed.

(** Joining one component to a well-formed path appends it, unless it is
    empty or ["."]. *)
Lemma joinpath_segment (p : pathlib.Path) (x : string) :
  pathlib.wf p = true -> Py.find "/" x = None ->
  pathlib.joinpath p x
  = pathlib.mkPath (pathlib.root p) (pathlib.tail p ++ List.filter pathlib.keep_part [x]).
Proof.
  intros Hwf Hx.
  destruct (string_dec x "") as [-> | Hne].
  { rewrite joinpath_empty by assumption. destruct p as [r l]. simpl.
    now rewrite app_nil_r. }
  assert (Hstart : Py.startswith x "/" = false) by now apply first_char_not_sep.
  unfold pathlib.joinpath, pathlib.posix_join. rewrite Hstart.
  destruct p as [r l]. unfold pathlib.wf in Hwf. simpl in Hwf.
  apply andb_true_iff in Hwf as [Hr Hl].
  destruct (wf_parts l Hl) as (HF & Hk & Hfirst).
  pose proof (wf_parts_all l Hl) as Hall.
  cbn [pathlib.root pathlib.tail].
  destruct l as [|y l].
  - destruct (roots_cases r Hr) as [-> | [-> | ->]].
    + match goal with
      | |- pathlib.parse ?j = _ => change j with ("" +:+ Py.join "/" ["."; x])
      end.
      rewrite parse_root_join; [reflexivity | reflexivity | | discriminate].
      repeat constructor. assumption.
    + match goal with
      | |- pathlib.parse ?j = _ => change j with ("/" +:+ Py.join "/" [x])
      end.
      rewrite parse_root_join; [reflexivity | reflexivity | | assumption].
      repeat constructor. assumption.
    + match goal with
      | |- pathlib.parse ?j = _ => change j with ("//" +:+ Py.join "/" [x])
      end.
      rewrite parse_root_join; [reflexivity | reflexivity | | assumption].
      repeat constructor. assumption.
  - assert (Hstr : pathlib.str (pathlib.mkPath r (y :: l)) = r +:+ Py.join "/" (y :: l)).
    { unfold pathlib.str. cbn [pathlib.root pathlib.tail].
      destruct (String.eqb (r +:+ Py.join "/" (y :: l)) "") eqn:E; [|reflexivity].
      apply String.eqb_eq in E. apply (f_equal String.length) in E.
      rewrite length_append, length_join in E. change (String.length "") with 0 in E.
      pose proof (join_length_cons y l). destruct y; [now contradiction Hfirst|].
      destruct l; simpl in E; lia. }
    rewrite Hstr.
    assert (Hend : Py.endswith (r +:+ Py.join "/" (y :: l)) "/" = false).
    { destruct (join_ends_with_last (y :: l)) as [X HX]. rewrite HX, <- append_assoc.
      destruct (last_item_Forall_ne _ (y :: l) ltac:(discriminate) Hall).
      now apply endswith_no_sep. }
    rewrite Hend.
    replace (String.eqb (r +:+ Py.join "/" (y :: l)) "") with false.
    + cbn [orb]. rewrite append_assoc, <- join_snoc_part by discriminate.
      rewrite parse_root_join; [| assumption | | assumption].
      * now rewrite List.filter_app, Hk.
      * apply List.Forall_app. split; [assumption|]. now constructor.
    + symmetry. apply String.eqb_neq. intros E. apply (f_equal String.length) in E.
      rewrite length_append, length_join in E. change (String.length "") with 0 in E.
      pose proof (join_length_cons y l). destruct y; [now contradiction Hfirst|].
      destruct l; simpl in E; lia.
Qed.

Lemma joinpath_absolute (p : pathlib.Path) (x : string) :
  Py.startswith x "/" = true -> pathlib.joinpath p x = pathlib.parse x.
Proof.
  intros H. unfold pathlib.joinpath, pathlib.posix_join. now rewrite H.
Qed.

Lemma quote_startswith_sep (x : string) :
  Py.startswith x "/" = true -> Py.startswith (urllib.quote x) "/" = true.
Proof.
  intros H. apply startswith_slash in H as [r ->]. reflexivity.
Qed.

Lemma endswith_data_slash (m : string) : Py.endswith (m +:+ "/data/") "/data" = false.
Proof.
  unfold Py.endswith. rewrite length_append.
  replace (String.length m + String.length "/data/" - String.length "/data")
    with (String.length m + 1) by (simpl; lia).
  rewrite drop_app_plus. simpl. apply andb_false_r.
Qed.

Section DownloadPlaces.

Context {World DataFrame : Type}.
Context {FS : FileSystem World} {PD : Pandas World DataFrame}.
Context {KA : KaggleApi World} {UP : UrlParser}.

Local Open Scope loader_scope.

(** X13: whatever follows [/datasets/] in the URL path, the
    destination directory of a dataset is the (well-formed) download
    directory with at most one component added, the quoted last segment
    of the identifier; the whole identifier goes to the client. *)
Theorem dataset_destination_is_child (dp : pathlib.Path) (url file : string)
    (uc : urllib.ParseResult) (st : state World) :
  urlparse url = inr uc ->
  urllib.netloc uc = "www.kaggle.com" ->
  Py.startswith (urllib.path uc) "/datasets/" = true ->
  pathlib.wf dp = true ->
  let id := Py.drop 10 (urllib.path uc) in
  let name := Py.last_item (Py.split "/" id) in
  kaggle_load dp url file st = dataset_branch dp id name file st
  /\ pathlib.joinpath dp (urllib.quote name)
     = pathlib.mkPath (pathlib.root dp)
         (pathlib.tail dp ++ List.filter pathlib.keep_part [urllib.quote name]).
Proof.
  intros Hp Hn Hs Hwf id name. split.
  - now apply kaggle_load_dataset.
  - apply joinpath_segment; [assumption|].
    apply quote_no_sep, last_segment_no_sep.
Qed.


(** X15: a file name that starts with [/] is loaded from the absolute
    path [quote(file)], not from the destination directory the download
    was made into. *)
Theorem kaggle_load_absolute_file (dp : pathlib.Path) (url file : string)
    (uc : urllib.ParseResult) (st : state World) :
  urlparse url = inr uc ->
  urllib.netloc uc = "www.kaggle.com" ->
  Py.startswith (urllib.path uc) "/datasets/" = true ->
  Py.startswith file "/" = true ->
  let id := Py.drop 10 (urllib.path uc) in
  let dest := pathlib.joinpath dp (urllib.quote (Py.last_item (Py.split "/" id))) in
  kaggle_load dp url file st
  = (call (EMkdir (pathlib.str dest) true true) (mkdir dest true true) ;;
     downloaded <-
       call (EDatasetDownload id file (pathlib.str dest) true)
            (dataset_download_file id file (pathlib.str dest) true) ;;
     if negb downloaded then raise (RuntimeError msg_download_failed)
     else load (pathlib.parse (urllib.quote file))) st.
Proof.
  intros Hp Hn Hs Hf id dest.
  rewrite (kaggle_load_dataset dp url file uc st Hp Hn Hs).
  unfold dataset_branch. fold id. fold dest.
  now rewrite (joinpath_absolute dest (urllib.quote file)) by now apply quote_startswith_sep.
Qed.

(** X16: exactly one trailing [/data] is removed from the competition
    name, and only when it ends the path: [/competitions/m/data] gives
    the name [m] for every [m], also one that itself ends in [/data],
    while [/competitions/m/data/] keeps the name [m/data/]. *)
Theorem competition_data_stripped_once (dp : pathlib.Path) (url file m : string)
    (uc : urllib.ParseResult) (st : state World) :
  urlparse url = inr uc ->
  urllib.netloc uc = "www.kaggle.com" ->
  (urllib.path uc = "/competitions/" +:+ m +:+ "/data" ->
   kaggle_load dp url file st = competition_branch dp m file st)
  /\ (urllib.path uc = "/competitions/" +:+ m +:+ "/data/" ->
      kaggle_load dp url file st = competition_branch dp (m +:+ "/data/") file st).
Proof.
  intros Hp Hn. split; intros Hpath.
  - rewrite (kaggle_load_competition dp url file uc st Hp Hn)
      by (rewrite Hpath; reflexivity).
    rewrite Hpath.
    change (Py.drop 14 ("/competitions/" +:+ m +:+ "/data")) with (m +:+ "/data").
    rewrite endswith_app.
    change (Py.drop_end 5 (m +:+ "/data"))
      with (Py.drop_end (String.length "/data") (m +:+ "/data")).
    now rewrite drop_end_app by discriminate.
  - rewrite (kaggle_load_competition dp url file uc st Hp Hn)
      by (rewrite Hpath; reflexivity).
    rewrite Hpath.
    change (Py.drop 14 ("/competitions/" +:+ m +:+ "/data/")) with (m +:+ "/data/").
    now rewrite endswith_data_slash.
Qed.

End DownloadPlaces.

(** * Runs for the further properties *)

Lemma load_table_origin_witness :
  exists q sep w pre,
    [EExtractAll "/d/x.csv.zip" "/d"; EReadCsv "/d/x.csv" ","]
    = pre ++ [EReadCsv (pathlib.str q) sep]
    /\ read_csv (pathlib.str q) sep w = (inr "/d/x.csv", tt)
    /\ ((Py.contains [".csv"; ".txt"] (pathlib.suffix q) = true /\ sep = ",")
        \/ (pathlib.suffix q = ".tsv" /\ sep = TAB)).
Proof.
  exact (load_table_origin (Mock.nested 1) (mkState tt [])
           (mkState tt [EExtractAll "/d/x.csv.zip" "/d"; EReadCsv "/d/x.csv" ","])
           "/d/x.csv" eq_refl).
Defined.

Lemma load_unsupported_witness :
  load (pathlib.parse "/d/r.pdf") (mkState tt [])
  = Some (Raise (NotImplementedError "load .pdf"), mkState tt [])
  /\ load (pathlib.parse "/d/r.pdf.zip") (mkState tt [])
     = Some (Raise (NotImplementedError "load .pdf"),
             mkState tt [EExtractAll "/d/r.pdf.zip" "/d"]).
Proof.
  split.
  - apply (proj1 (load_unsupported (pathlib.parse "/d/r.pdf") (mkState tt []))).
    reflexivity.
  - refine (proj2 (load_unsupported (pathlib.parse "/d/r.pdf.zip") (mkState tt []))
              _ _ tt _); reflexivity.
Defined.

Lemma load_case_sensitive_witness :
  load (pathlib.parse "/d/X.ZIP") (mkState tt [])
  = Some (Raise (NotImplementedError "load .ZIP"), mkState tt []).
Proof.
  apply (load_case_sensitive (pathlib.parse "/d/X.ZIP") (mkState tt [])).
  simpl. discriminate.
Defined.



Lemma kaggle_load_invalid_url_iff_witness :
  ((exists e, @Raise string (ValueError (msg_invalid_url_path "/models/x")) = Raise e
              /\ kind_of e = Some InvalidUrl) <->
   ("www.kaggle.com" <> "www.kaggle.com"
    \/ (Py.startswith "/models/x" "/competitions/" = false
        /\ Py.startswith "/models/x" "/datasets/" = false)))
  /\ ((exists e, @Raise string (ValueError (msg_invalid_url_path "/models/x")) = Raise e
               /\ kind_of e = Some InvalidUrl) ->
      mkState tt [] = mkState tt []).
Proof.
  exact (kaggle_load_invalid_url_iff (DataFrame := string) (pathlib.parse "/dl")
           "https://www.kaggle.com/models/x" "f.csv"
           (urllib.mkParseResult "https" "www.kaggle.com" "/models/x" "" "" "")
           (mkState tt []) (mkState tt [])
           (Raise (ValueError (msg_invalid_url_path "/models/x"))) eq_refl eq_refl).
Defined.

Lemma init_error_kinds_witness :
  (exists x, ValueError msg_not_a_file = Foreign x)
  \/ (is_not_None (Some "/data") = true
      /\ In (kind_of (ValueError msg_not_a_file))
           [Some InvalidRequest; Some PathNotFound; Some UnsupportedFormat])
  \/ (is_not_None (Some "/data") = false
      /\ In (kind_of (ValueError msg_not_a_file))
           [Some InvalidRequest; Some InvalidUrl;
            Some RemoteDownloadFailed; Some UnsupportedFormat]).
Proof.
  refine (init_error_kinds (Some "/data") None None None (Sim.start Sim.w0)
            (mkState Sim.w0 [EIsFile "/data"]) (ValueError msg_not_a_file) _).
  vm_compute. reflexivity.
Defined.

Lemma init_slots_witness :
  path _ (mkData (Some (pathlib.parse "/d/x.csv")) "/d/x.csv" false None)
  = Some (pathlib.parse "/d/x.csv")
  /\ kaggle_api _ (mkData (Some (pathlib.parse "/d/x.csv")) "/d/x.csv" false None) = false
  /\ download_path _ (mkData (Some (pathlib.parse "/d/x.csv")) "/d/x.csv" false None) = None.
Proof.
  exact (init_slots (Some "/d/x.csv") None None None (mkState tt [])
           (mkState tt [EIsFile "/d/x.csv"; EReadCsv "/d/x.csv" ","])
           (mkData (Some (pathlib.parse "/d/x.csv")) "/d/x.csv" false None) eq_refl).
Defined.

Lemma init_remote_authenticates_first_witness :
  __init__ (DataFrame := string) None (Some "https://www.kaggle.com/datasets/o/n")
    (Some "f.csv") (Some "dl") (mkState Broken.Disk [])
  = Some (Raise (Foreign (mkExternal "RuntimeError" "Symlink loop from dl")),
          mkState Broken.Disk [EResolve "dl"])
  /\ __init__ None (Some "https://www.kaggle.com/datasets/o/n") (Some "f.csv") (Some "dl")
       (Sim.start w_nocred)
     = Some (Raise (Foreign (mkExternal "SystemExit" "1")),
             mkState w_nocred [EResolve "dl"; EAuthenticate])
  /\ __init__ None (Some "https://example.com/datasets/o/n") (Some "f.csv") (Some "dl")
       (Sim.start Sim.w0)
     = Some (Raise (ValueError (msg_invalid_netloc "example.com")),
             mkState Sim.w0 [EResolve "dl"; EAuthenticate]).
Proof.
  split; [|split].
  - refine (proj1 (init_remote_authenticates_first
                     (Some "https://www.kaggle.com/datasets/o/n") (Some "f.csv") (Some "dl")
                     (mkState Broken.Disk []) _) _ _); reflexivity.
  - refine (proj1 (proj2 (init_remote_authenticates_first
                     (Some "https://www.kaggle.com/datasets/o/n") (Some "f.csv") (Some "dl")
                     (Sim.start w_nocred) _)) (pathlib.parse "/home/u/dl") _ _ _ _);
      reflexivity.
  - refine (proj2 (proj2 (init_remote_authenticates_first
                     (Some "https://example.com/datasets/o/n") (Some "f.csv") (Some "dl")
                     (Sim.start Sim.w0) _)) (pathlib.parse "/home/u/dl") Sim.w0
                  (urllib.mkParseResult "https" "example.com" "/datasets/o/n" "" "" "")
                  _ _ _ _); try reflexivity.
    simpl. discriminate.
Defined.

Lemma kaggle_load_dataset_stops_witness :
  kaggle_load (pathlib.parse "/home/u") "https://www.kaggle.com/datasets/o/a.csv" "f.csv"
    (Sim.start Sim.w0)
  = Some (Raise (Foreign (mkExternal "FileExistsError" "/home/u/a.csv")),
          mkState Sim.w0 [EMkdir "/home/u/a.csv" true true])
  /\ kaggle_load (pathlib.parse "/home/u/dl")
       "https://www.kaggle.com/datasets/owner/missing" "f.csv" (Sim.start Sim.w0)
     = Some (Raise (RuntimeError msg_download_failed),
             mkState (Sim.with_dirs Sim.w0 ({[ "/home/u/dl/missing" ]} ∪ Sim.dirs Sim.w0))
               [EMkdir "/home/u/dl/missing" true true;
                EDatasetDownload "owner/missing" "f.csv" "/home/u/dl/missing" true]).
Proof.
  split.
  - refine (proj1 (kaggle_load_dataset_stops (pathlib.parse "/home/u")
                     "https://www.kaggle.com/datasets/o/a.csv" "f.csv"
                     (urllib.mkParseResult "https" "www.kaggle.com" "/datasets/o/a.csv" "" "" "")
                     (Sim.start Sim.w0) _ _ _) _ _ _); vm_compute; reflexivity.
  - refine (proj1 (proj2 (kaggle_load_dataset_stops (pathlib.parse "/home/u/dl")
                     "https://www.kaggle.com/datasets/owner/missing" "f.csv"
                     (urllib.mkParseResult "https" "www.kaggle.com" "/datasets/owner/missing"
                        "" "" "")
                     (Sim.start Sim.w0) _ _ _)
                   (Sim.with_dirs Sim.w0 ({[ "/home/u/dl/missing" ]} ∪ Sim.dirs Sim.w0))
                   (Sim.with_dirs Sim.w0 ({[ "/home/u/dl/missing" ]} ∪ Sim.dirs Sim.w0))
                   _ _)); vm_compute; reflexivity.
Defined.

Lemma dataset_destination_is_child_witness :
  pathlib.joinpath (pathlib.parse "/home/u/dl") (urllib.quote "tree nuts")
  = pathlib.mkPath "/" ["home"; "u"; "dl"; "tree%20nuts"].
Proof.
  exact (proj2 (dataset_destination_is_child (World := unit) (DataFrame := string)
                  (pathlib.parse "/home/u/dl")
                  "https://www.kaggle.com/datasets/a/b/c/tree nuts" "f.csv"
                  (urllib.mkParseResult "https" "www.kaggle.com" "/datasets/a/b/c/tree nuts"
                     "" "" "")
                  (mkState tt []) eq_refl eq_refl eq_refl eq_refl)).
Defined.


Lemma kaggle_load_absolute_file_witness :
  kaggle_load (pathlib.parse "/home/u/dl") "https://www.kaggle.com/datasets/a/b/c/d"
    "/etc/f.csv" (mkState tt [])
  = Some (Ok "/etc/f.csv",
          mkState tt [EMkdir "/home/u/dl/d" true true;
                      EDatasetDownload "a/b/c/d" "/etc/f.csv" "/home/u/dl/d" true;
                      EReadCsv "/etc/f.csv" ","]).
Proof.
  etransitivity.
  - refine (kaggle_load_absolute_file (pathlib.parse "/home/u/dl")
              "https://www.kaggle.com/datasets/a/b/c/d" "/etc/f.csv"
              (urllib.mkParseResult "https" "www.kaggle.com" "/datasets/a/b/c/d" "" "" "")
              (mkState tt []) _ _ _ _); reflexivity.
  - reflexivity.
Defined.

Lemma competition_data_stripped_once_witness :
  kaggle_load (pathlib.parse "/home/u/dl") "https://www.kaggle.com/competitions/c/data/data"
    "f.csv" (mkState tt [])
  = competition_branch (pathlib.parse "/home/u/dl") "c/data" "f.csv" (mkState tt [])
  /\ kaggle_load (pathlib.parse "/home/u/dl") "https://www.kaggle.com/competitions/c/data/"
       "f.csv" (mkState tt [])
     = competition_branch (pathlib.parse "/home/u/dl") "c/data/" "f.csv" (mkState tt []).
Proof.
  split.
  - exact (proj1 (competition_data_stripped_once (pathlib.parse "/home/u/dl")
                    "https://www.kaggle.com/competitions/c/data/data" "f.csv" "c/data"
                    (urllib.mkParseResult "https" "www.kaggle.com" "/competitions/c/data/data"
                       "" "" "")
                    (mkState tt []) eq_refl eq_refl) eq_refl).
  - exact (proj2 (competition_data_stripped_once (pathlib.parse "/home/u/dl")
                    "https://www.kaggle.com/competitions/c/data/" "f.csv" "c"
                    (urllib.mkParseResult "https" "www.kaggle.com" "/competitions/c/data/"
                       "" "" "")
                    (mkState tt []) eq_refl eq_refl) eq_refl).
Defined.
